(** * SimplePay client: request execution and response classification

    A shallow embedding of [simplepay/__init__.py]: the two request
    executors [SimplePay.request] and [SimplePay.request_async] and the
    endpoint wrappers built on them, with the Python values, exceptions and
    effects (requests sent, delays slept) they manipulate. *)

From Stdlib Require Import ZArith QArith List String Ascii Bool Lia.
From Stdlib Require Import DecimalString.
From Stdlib Require DecimalPos.
Import ListNotations.

Set Warnings "-register-all".

Local Open Scope string_scope.
Local Open Scope Z_scope.

(** ** Python values

    The values a decoded JSON document is made of, as Python objects:
    [None], [bool], [int], [str], [list] and [dict].  A [dict] keeps its
    insertion order, which [str()] shows.  Strings are sequences of code
    points below 256; JSON numbers are restricted to integers. *)

Module Py.

Inductive value : Type :=
| VNone
| VBool (b : bool)
| VInt (n : Z)
| VStr (s : string)
| VList (items : list value)
| VDict (entries : list (string * value)).

(** *** [repr] and [str] *)

Definition dquote : ascii := ascii_of_nat 34.
Definition squote : ascii := ascii_of_nat 39.
Definition backslash : ascii := ascii_of_nat 92.

Fixpoint has_char (c : ascii) (s : string) : bool :=
  match s with
  | EmptyString => false
  | String d rest => Ascii.eqb c d || has_char c rest
  end.

Definition hex_digit (n : N) : ascii :=
  if (n <? 10)%N then ascii_of_N (48 + n) else ascii_of_N (87 + n).

(** [str.isprintable] on the code points below 256: the controls
    (0-31, 127-159), the no-break space (160) and the soft hyphen (173)
    are not printable. *)
Definition isprintable (c : ascii) : bool :=
  let n := N_of_ascii c in
  ((32 <=? n) && (n <? 127) || (161 <=? n) && negb (n =? 173))%N.

(** One character of [repr(s)], [q] being the quote that encloses it. *)
Definition repr_char (q c : ascii) : string :=
  if Ascii.eqb c q || Ascii.eqb c backslash then String backslash (String c "")
  else if Ascii.eqb c (ascii_of_nat 9) then String backslash "t"
  else if Ascii.eqb c (ascii_of_nat 10) then String backslash "n"
  else if Ascii.eqb c (ascii_of_nat 13) then String backslash "r"
  else if isprintable c then String c ""
  else String backslash
         (String "x" (String (hex_digit (N_of_ascii c / 16))
                        (String (hex_digit (N_of_ascii c mod 16)) ""))).

Fixpoint repr_chars (q : ascii) (s : string) : string :=
  match s with
  | EmptyString => ""
  | String c rest => repr_char q c ++ repr_chars q rest
  end.

(** [repr] of a [str]: single quotes, unless the string holds a single
    quote and no double quote. *)
Definition repr_str (s : string) : string :=
  let q := if has_char squote s && negb (has_char dquote s)
           then dquote else squote in
  String q (repr_chars q s ++ String q "").

(** [str] of an [int]. *)
Definition str_int (n : Z) : string := NilZero.string_of_int (Z.to_int n).

Fixpoint join (sep : string) (parts : list string) : string :=
  match parts with
  | [] => ""
  | [p] => p
  | p :: rest => p ++ sep ++ join sep rest
  end.

Fixpoint repr (v : value) : string :=
  match v with
  | VNone => "None"
  | VBool true => "True"
  | VBool false => "False"
  | VInt n => str_int n
  | VStr s => repr_str s
  | VList items => "[" ++ join ", " (map repr items) ++ "]"
  | VDict entries =>
      "{" ++ join ", " (map (fun kv => repr_str (fst kv) ++ ": " ++ repr (snd kv))
                           entries) ++ "}"
  end.

(** [str(v)]: a string is itself, everything else its [repr]. *)
Definition str (v : value) : string :=
  match v with
  | VStr s => s
  | _ => repr v
  end.

End Py.

Import Py.


(** ** Exceptions and outcomes *)

(** The exceptions the client can raise or let through.  [NotFound] and
    [SimplePayException] are the two classes the module declares; the
    others come from Python and from the HTTP libraries. *)
Inductive exn : Type :=
| NotFound (message : value)
| SimplePayException (message : value)
| JSONDecodeError
| ContentTypeError
| KeyError (key : value)
| IndexError
| TypeError
| AttributeError (attr : string)
| NameError (name : string).

Inductive outcome (A : Type) : Type :=
| Return (a : A)
| Raise (e : exn).

Arguments Return {A} a.
Arguments Raise {A} e.

(** [isinstance(e, JSONDecodeError)], the test of [except JSONDecodeError]. *)
Definition is_JSONDecodeError (e : exn) : bool :=
  match e with JSONDecodeError => true | _ => false end.

(** [isinstance(e, Exception)], the test of [except Exception]. *)
Definition is_Exception (e : exn) : bool := true.

(** ** Operations on values *)

Fixpoint lookup (key : string) (entries : list (string * value)) : option value :=
  match entries with
  | [] => None
  | (k, v) :: rest => if String.eqb k key then Some v else lookup key rest
  end.

(** [v[key]] with a [str] key. *)
Definition getitem (v : value) (key : string) : outcome value :=
  match v with
  | VDict entries =>
      match lookup key entries with
      | Some x => Return x
      | None => Raise (KeyError (VStr key))
      end
  | _ => Raise TypeError
  end.

(** [v[i]] with an [int] index that is not negative. *)
Definition getitem_index (v : value) (i : nat) : outcome value :=
  match v with
  | VList items =>
      match nth_error items i with
      | Some x => Return x
      | None => Raise IndexError
      end
  | VStr s =>
      match String.get i s with
      | Some c => Return (VStr (String c ""))
      | None => Raise IndexError
      end
  | VDict _ => Raise (KeyError (VInt (Z.of_nat i)))
  | _ => Raise TypeError
  end.

Fixpoint is_infix (needle s : string) : bool :=
  String.prefix needle s
  || match s with
     | EmptyString => false
     | String _ rest => is_infix needle rest
     end.

(** [key in v] with a [str] key. *)
Definition contains (key : string) (v : value) : outcome bool :=
  match v with
  | VDict entries =>
      Return (match lookup key entries with Some _ => true | None => false end)
  | VList items =>
      Return (existsb (fun x => match x with
                                | VStr s => String.eqb s key
                                | _ => false
                                end) items)
  | VStr s => Return (is_infix key s)
  | _ => Raise TypeError
  end.

Fixpoint chars (s : string) : list value :=
  match s with
  | EmptyString => []
  | String c rest => VStr (String c "") :: chars rest
  end.

(** [v += s] with a [str] on the right: concatenation for a [str],
    extension by the characters for a [list], a [TypeError] otherwise. *)
Definition iadd_str (v : value) (s : string) : outcome value :=
  match v with
  | VStr m => Return (VStr (m ++ s))
  | VList items => Return (VList (items ++ chars s))
  | _ => Raise TypeError
  end.

(** The items [for x in v] runs through. *)
Definition iterate (v : value) : outcome (list value) :=
  match v with
  | VList items => Return items
  | VDict entries => Return (map (fun kv => VStr (fst kv)) entries)
  | VStr s => Return (chars s)
  | _ => Raise TypeError
  end.

(** ** Requests, responses and the world around the client *)

Record http_request : Type := mk_request {
  method : string;
  url : string;
  headers : list (string * string);
  payload : option value
}.

(** A response as the client sees it: the status code, the bytes of the
    body, the body decoded as text, and what decoding the body as JSON
    gives, a value or the exception the decoder raises. *)
Record response : Type := mk_response {
  status_code : Z;
  content : string;
  text : string;
  json : outcome value
}.

(** [requests.Response.ok]: [raise_for_status] raises for the 4xx and 5xx
    codes only. *)
Definition requests_ok (r : response) : bool :=
  negb ((400 <=? status_code r) && (status_code r <? 600)).

(** [aiohttp.ClientResponse.ok]: the status is below 400. *)
Definition aiohttp_ok (r : response) : bool := status_code r <? 400.

Inductive event : Type :=
| Slept (seconds : Q)
| Sent (req : http_request).

(** What the client does not control: how the server answers a request,
    given all that happened before, and the numbers the random generator
    yields. *)
Record world : Type := mk_world {
  server : list event -> http_request -> response;
  random : nat -> Z
}.

(** What a run changes: the trace of events, oldest first, and how many
    random numbers were drawn. *)
Record state : Type := mk_state {
  trace : list event;
  draws : nat
}.

Definition initial : state := mk_state [] 0.

(** ** The monad of client code: a world to read, a state to thread,
    and an exception or a result at the end. *)
Definition M (A : Type) : Type := world -> state -> outcome A * state.

Definition ret {A} (a : A) : M A := fun _ s => (Return a, s).

Definition raise {A} (e : exn) : M A := fun _ s => (Raise e, s).

Definition bind {A B} (m : M A) (k : A -> M B) : M B :=
  fun w s =>
    match m w s with
    | (Return a, s') => k a w s'
    | (Raise e, s') => (Raise e, s')
    end.

(** [try: body except <class>: handler], [catches] deciding the class. *)
Definition try_except {A} (body : M A) (catches : exn -> bool)
    (handler : exn -> M A) : M A :=
  fun w s =>
    match body w s with
    | (Raise e, s') => if catches e then handler e w s' else (Raise e, s')
    | done => done
    end.

Definition lift {A} (o : outcome A) : M A := fun _ s => (o, s).

Declare Scope py_scope.
Delimit Scope py_scope with py.
Notation "x <- m ;; k" := (bind m (fun x => k))
  (at level 100, m at next level, right associativity) : py_scope.
Notation "m ;;; k" := (bind m (fun _ => k))
  (at level 100, right associativity) : py_scope.
Local Open Scope py_scope.

(** Sending a request: the server answers, the trace records it. *)
Definition send (req : http_request) : M response :=
  fun w s =>
    (Return (server w (trace s) req),
     mk_state (trace s ++ [Sent req]) (draws s)).

(** [asyncio.sleep(seconds)]. *)
Definition sleep (seconds : Q) : M unit :=
  fun _ s => (Return tt, mk_state (trace s ++ [Slept seconds]) (draws s)).

(** [random.randrange(lo, hi)]: an integer of [lo, hi), every one of
    which some draw yields. *)
Definition randrange (lo hi : Z) : M Z :=
  fun w s =>
    (Return (lo + random w (draws s) mod (hi - lo)),
     mk_state (trace s) (S (draws s))).

(** ** Python objects

    What a variable of the client can hold: a value, a [bytes] object, a
    response, the API instance with its key, an object bound at module
    level or built in (a module, a class, a function), or the coroutine
    that calling an [async def] function gives, which holds the body that
    has not run yet. *)
Inductive pyobj : Type :=
| OValue (v : value)
| OBytes (b : string)
| OResponse (r : response)
| OClient (api_key : string)
| OGlobal (name : string)
| OCoroutine (body : world -> state -> outcome pyobj * state).

(** The operations of the client on objects.  On an [OGlobal] they all
    raise; the client applies none of them to such an object. *)

(** [o.json()]: only a response has the method. *)
Definition call_json (o : pyobj) : M value :=
  match o with
  | OResponse r => lift (json r)
  | _ => raise (AttributeError "json")
  end.

(** [o[key]] with a [str] key. *)
Definition subscript (o : pyobj) (key : string) : M pyobj :=
  match o with
  | OValue v => x <- lift (getitem v key) ;; ret (OValue x)
  | _ => raise TypeError
  end.

(** [o[i]] with an [int] index that is not negative. *)
Definition subscript_index (o : pyobj) (i : nat) : M pyobj :=
  match o with
  | OValue v => x <- lift (getitem_index v i) ;; ret (OValue x)
  | OBytes b =>
      match String.get i b with
      | Some c => ret (OValue (VInt (Z.of_N (N_of_ascii c))))
      | None => raise IndexError
      end
  | _ => raise TypeError
  end.

(** The body of a response cut into pieces of [n] bytes, at most
    [fuel] of them. *)
Fixpoint slices (fuel n : nat) (b : string) : list string :=
  match fuel, b with
  | S fuel', String _ _ =>
      String.substring 0 n b
      :: slices fuel' n (String.substring n (String.length b - n) b)
  | _, _ => []
  end.

Fixpoint byte_values (b : string) : list pyobj :=
  match b with
  | EmptyString => []
  | String c rest => OValue (VInt (Z.of_N (N_of_ascii c))) :: byte_values rest
  end.

(** The items [for x in o] runs through: those of a value, the bytes of a
    [bytes] object, the body of a response in pieces of 128 bytes.  A
    coroutine is not iterable. *)
Definition for_items (o : pyobj) : M (list pyobj) :=
  match o with
  | OValue v => items <- lift (iterate v) ;; ret (map OValue items)
  | OBytes b => ret (byte_values b)
  | OResponse r =>
      ret (map OBytes (slices (String.length (content r)) 128 (content r)))
  | _ => raise TypeError
  end.

(** [await o]: a coroutine runs its body. *)
Definition await (o : pyobj) : M pyobj :=
  match o with
  | OCoroutine body => body
  | _ => raise TypeError
  end.

(** Serialising the [json=] argument of a request: only values have a
    JSON form. *)
Definition dumps (o : pyobj) : M value :=
  match o with
  | OValue v => ret v
  | _ => raise TypeError
  end.

(** ['...{}...'.format(o)] for the objects the wrappers pass as an id. *)
Definition format1 (before after : string) (v : value) : string :=
  before ++ str v ++ after.

(** ['...{}...{}...'.format(v1, v2)]. *)
Definition format2 (before between after : string) (v1 v2 : value) : string :=
  before ++ str v1 ++ between ++ str v2 ++ after.

(** [o.items()]: the entries of a [dict], in order; no other object the
    client holds has the method. *)
Definition call_items (o : pyobj) : M (list (string * value)) :=
  match o with
  | OValue (VDict entries) => ret entries
  | _ => raise (AttributeError "items")
  end.

(** [o.content]: the bytes of the body of a response. *)
Definition get_content (o : pyobj) : M pyobj :=
  match o with
  | OResponse r => ret (OBytes (content r))
  | _ => raise (AttributeError "content")
  end.

(** The [date] argument of the leave balance methods: any object with a
    [strftime] method, a [datetime.date] or a [datetime.datetime]. *)
Record date_like : Type := mk_date { strftime : string -> string }.

Fixpoint for_each {A B} (f : A -> M B) (items : list A) : M (list B) :=
  match items with
  | [] => ret []
  | x :: rest => y <- f x ;; ys <- for_each f rest ;; ret (y :: ys)
  end.

(** ** Names

    A name that is not a local variable is looked up among the names
    bound at module level, then among the built-in ones; a name found
    nowhere is a [NameError]. *)

Definition module_names : list string :=
  [ "__name__"; "__doc__"; "__package__"; "__loader__"; "__spec__";
    "__path__"; "__file__"; "__cached__"; "__builtins__";
    "asyncio"; "logging"; "pprint"; "List"; "Dict"; "Optional"; "Tuple";
    "Any"; "Union"; "json"; "JSONDecodeError"; "datetime"; "Decimal";
    "random"; "Request"; "Session"; "Response"; "uuid"; "__version__";
    "SimplePay"; "SimplePayException"; "NotFound" ].

Definition builtin_names : list string :=
  [ "ArithmeticError"; "AssertionError"; "AttributeError"; "BaseException";
    "BaseExceptionGroup"; "BlockingIOError"; "BrokenPipeError"; "BufferError";
    "BytesWarning"; "ChildProcessError"; "ConnectionAbortedError";
    "ConnectionError"; "ConnectionRefusedError"; "ConnectionResetError";
    "DeprecationWarning"; "EOFError"; "Ellipsis"; "EncodingWarning";
    "EnvironmentError"; "Exception"; "ExceptionGroup"; "False";
    "FileExistsError"; "FileNotFoundError"; "FloatingPointError";
    "FutureWarning"; "GeneratorExit"; "IOError"; "ImportError";
    "ImportWarning"; "IndentationError"; "IndexError"; "InterruptedError";
    "IsADirectoryError"; "KeyError"; "KeyboardInterrupt"; "LookupError";
    "MemoryError"; "ModuleNotFoundError"; "NameError"; "None";
    "NotADirectoryError"; "NotImplemented"; "NotImplementedError"; "OSError";
    "OverflowError"; "PendingDeprecationWarning"; "PermissionError";
    "ProcessLookupError"; "RecursionError"; "ReferenceError";
    "ResourceWarning"; "RuntimeError"; "RuntimeWarning";
    "StopAsyncIteration"; "StopIteration"; "SyntaxError"; "SyntaxWarning";
    "SystemError"; "SystemExit"; "TabError"; "TimeoutError"; "True";
    "TypeError"; "UnboundLocalError"; "UnicodeDecodeError";
    "UnicodeEncodeError"; "UnicodeError"; "UnicodeTranslateError";
    "UnicodeWarning"; "UserWarning"; "ValueError"; "Warning";
    "ZeroDivisionError"; "__build_class__"; "__debug__"; "__import__";
    "abs"; "aiter"; "all"; "anext"; "any"; "ascii"; "bin"; "bool";
    "breakpoint"; "bytearray"; "bytes"; "callable"; "chr"; "classmethod";
    "compile"; "complex"; "copyright"; "credits"; "delattr"; "dict"; "dir";
    "divmod"; "enumerate"; "eval"; "exec"; "exit"; "filter"; "float";
    "format"; "frozenset"; "getattr"; "globals"; "hasattr"; "hash"; "help";
    "hex"; "id"; "input"; "int"; "isinstance"; "issubclass"; "iter"; "len";
    "license"; "list"; "locals"; "map"; "max"; "memoryview"; "min"; "next";
    "object"; "oct"; "open"; "ord"; "pow"; "print"; "property"; "quit";
    "range"; "repr"; "reversed"; "round"; "set"; "setattr"; "slice";
    "sorted"; "staticmethod"; "str"; "sum"; "super"; "tuple"; "type";
    "vars"; "zip" ].

Fixpoint local_lookup (name : string) (locals : list (string * pyobj))
    : option pyobj :=
  match locals with
  | [] => None
  | (k, o) :: rest => if String.eqb k name then Some o else local_lookup name rest
  end.

(** Evaluating the name [name] in a function whose local variables are
    [locals]. *)
Definition load_name (locals : list (string * pyobj)) (name : string) : M pyobj :=
  match local_lookup name locals with
  | Some o => ret o
  | None =>
      if existsb (String.eqb name) (module_names ++ builtin_names)
      then ret (OGlobal name)
      else raise (NameError name)
  end.

(** ** The client *)

Module SimplePay.

(** An API instance holds the key it was created with. *)
Record t : Type := new { key : string }.

Definition _URL : string := "https://www.simplepay.co.za/api/v1".

Definition auth_headers (self : t) : list (string * string) :=
  [("Authorization", key self); ("Content-type", "application/json")].

(** The [json=] keyword argument, when a wrapper passes one. *)
Definition json_kwarg (kw : option pyobj) : M (option value) :=
  match kw with
  | None => ret None
  | Some o => v <- dumps o ;; ret (Some v)
  end.

(** [SimplePay.request]: the blocking executor.  The diagnostic [print]
    of the failure branch decodes the body a second time, which gives
    what the first time gave; output is not modelled. *)
Definition request (self : t) (resource method : string)
    (kw : option pyobj) : M pyobj :=
  data <- json_kwarg kw ;;
  let req := mk_request method (_URL ++ resource) (auth_headers self) data in
  response <- send req ;;
  if status_code response =? 404 then
    message <- try_except
                 (body <- lift (json response) ;; lift (getitem body "message"))
                 is_JSONDecodeError
                 (fun _ => ret (VStr (text response))) ;;
    raise (NotFound message)
  else if negb (requests_ok response) then
    json <- lift (json response) ;;
    message <- try_except
                 (message <- lift (getitem json "message") ;;
                  has_errors <- lift (contains "errors" json) ;;
                  if has_errors : bool then
                    errors <- lift (getitem json "errors") ;;
                    lift (iadd_str message (str errors))
                  else ret message)
                 is_JSONDecodeError
                 (fun _ => ret (VStr (text response))) ;;
    raise (SimplePayException message)
  else ret (OResponse response).

(** What [str] shows of the bound method [response.text] of aiohttp,
    which the last handler of [request_async] stores without calling. *)
Definition bound_text_method : string := "<bound method ClientResponse.text>".

(** [SimplePay.request_async]: the body of the non-blocking executor,
    which runs when the coroutine is awaited.  Logging is not modelled;
    [await response.text], without the call, is a [TypeError]. *)
Definition request_async (self : t) (resource method : string)
    (kw : option pyobj) : M pyobj :=
  let headers := auth_headers self in
  n <- randrange 20 100 ;;
  let sleep_time := (inject_Z n / 100)%Q in
  sleep sleep_time ;;;
  data <- json_kwarg kw ;;
  response <- send (mk_request method (_URL ++ resource) headers data) ;;
  if status_code response =? 404 then
    message <- try_except
                 (message <- lift (json response) ;;
                  lift (getitem message "message"))
                 is_JSONDecodeError
                 (fun _ => raise TypeError) ;;
    raise (NotFound message)
  else if negb (aiohttp_ok response) then
    json <- try_except (lift (json response)) is_Exception
              (fun e => raise e) ;;
    message <- try_except
                 (message <- lift (getitem json "message") ;;
                  has_errors <- lift (contains "errors" json) ;;
                  if has_errors : bool then
                    errors <- lift (getitem json "errors") ;;
                    lift (iadd_str message (str errors))
                  else ret message)
                 is_JSONDecodeError
                 (fun _ => ret (VStr bound_text_method)) ;;
    raise (SimplePayException
             (VStr ("Status: " ++ str_int (status_code response) ++ ": "
                    ++ str message)))
  else
    response_json <- lift (json response) ;;
    ret (OValue response_json).

(** Calling an [async def] method runs nothing: it gives a coroutine. *)
Definition call_async (body : M pyobj) : pyobj := OCoroutine body.

(** *** Endpoint wrappers *)

Definition get_employee (self : t) (employee_id : value) : M pyobj :=
  resp <- request self (format1 "/employees/" "" employee_id) "GET" None ;;
  body <- call_json resp ;;
  subscript (OValue body) "employee".

Definition get_employee_async (self : t) (employee_id : value) : M pyobj :=
  resp <- await (call_async
                   (request_async self (format1 "/employees/" "" employee_id)
                      "GET" None)) ;;
  subscript resp "employee".

Definition get_leave_days (self : t) (employee_id : value) : M (list pyobj) :=
  resp <- request self (format1 "/employees/" "/leave_days" employee_id)
            "GET" None ;;
  body <- call_json resp ;;
  items <- for_items (OValue body) ;;
  for_each (fun _item => subscript_index _item 0) items.

(** Declared with [def], not [async def]: the call of [request_async] is
    not awaited, and [resp] is the coroutine. *)
Definition get_leave_days_async (self : t) (employee_id : value)
    : M (list pyobj) :=
  let resp := call_async
                (request_async self
                   (format1 "/employees/" "/leave_days" employee_id)
                   "GET" None) in
  items <- for_items resp ;;
  for_each (fun _item => subscript_index _item 0) items.

(** [type_id] is an [int], of which [int(type_id)] is the value. *)
Definition add_leave_days (self : t) (employee_id : value) (type_id : Z)
    (leave_days : list string) : M pyobj :=
  let data :=
    VDict [("dates",
            VList (map (fun date => VDict [("date", VStr date);
                                           ("hours", VNone);
                                           ("type_id", VInt type_id)])
                       leave_days))] in
  resp <- request self
            (format1 "/employees/" "/leave_days/create_multiple" employee_id)
            "POST" (Some (OValue data)) ;;
  body <- call_json resp ;;
  ret (OValue body).

Definition get_payslips (self : t) (employee_id : value) : M (list pyobj) :=
  resp <- request self (format1 "/employees/" "/payslips" employee_id)
            "GET" None ;;
  body <- call_json resp ;;
  items <- for_items (OValue body) ;;
  for_each (fun payslip => ret payslip) items.

Definition get_payslips_async (self : t) (employee_id : value)
    : M (list pyobj) :=
  resp <- await (call_async
                   (request_async self
                      (format1 "/employees/" "/payslips" employee_id)
                      "GET" None)) ;;
  body <- call_json resp ;;
  items <- for_items (OValue body) ;;
  for_each (fun payslip => ret payslip) items.

(** The arguments of the first call are evaluated before the call: the
    resource, then the name [data], which the method does not bind. *)
Definition create_calculation (self : t) (employee_id : value)
    (calculation : value) : M pyobj :=
  let locals := [("self", OClient (key self));
                 ("employee_id", OValue employee_id);
                 ("calculation", OValue calculation)] in
  let resource :=
    format1 "/employees/" "/leave_days/create_multiple" employee_id in
  data <- load_name locals "data" ;;
  resp <- request self resource "POST" (Some data) ;;
  resp2 <- request self
             (format1 "/employees/" "/inherited_calculations" employee_id)
             "GET" None ;;
  body <- call_json resp2 ;;
  ret (OValue body).

Definition create_payslip_calculation (self : t) (payslip_id : value)
    (calculation : value) : M pyobj :=
  resp <- request self (format1 "/payslips/" "/calculations" payslip_id)
            "POST" (Some (OValue calculation)) ;;
  ret resp.

(** *** The other endpoint wrappers *)

Definition get_clients (self : t) : M (list pyobj) :=
  resp <- request self "/clients" "GET" None ;;
  body <- call_json resp ;;
  items <- for_items (OValue body) ;;
  for_each (fun client => subscript client "client") items.

Definition get_employees (self : t) (client_id : value) : M (list pyobj) :=
  resp <- request self (format1 "/clients/" "/employees" client_id) "GET" None ;;
  body <- call_json resp ;;
  items <- for_items (OValue body) ;;
  for_each (fun employee => subscript employee "employee") items.

(** The body both leave accrual methods post: [employee_ids] is not read,
    the body says [None]. *)
Definition comparison_leave_body (start_date end_date leave_types : value)
    : value :=
  VDict [("start_date", start_date);
         ("end_date", end_date);
         ("wave_ids", VNone);
         ("employee_ids", VNone);
         ("leave_types", leave_types);
         ("humanize", VBool false)].

(** The dates are given as values, a [str] as a rule; the [print] of the
    arguments is output, which is not modelled. *)
Definition get_leave_accrual_policies (self : t) (client_id : value)
    (start_date end_date leave_types : value) (employee_ids : option value)
    : M pyobj :=
  resp <- request self
            (format1 "/clients/" "/reports/comparison_leave" client_id)
            "POST"
            (Some (OValue (comparison_leave_body start_date end_date
                             leave_types))) ;;
  body <- call_json resp ;;
  ret (OValue body).

Definition get_leave_accrual_policies_async (self : t) (client_id : value)
    (start_date end_date leave_types : value) (employee_ids : option value)
    : M pyobj :=
  resp <- await (call_async
                   (request_async self
                      (format1 "/clients/" "/reports/comparison_leave" client_id)
                      "POST"
                      (Some (OValue (comparison_leave_body start_date end_date
                                       leave_types))))) ;;
  ret resp.

Definition get_leave_types (self : t) (client_id : value) : M pyobj :=
  resp <- request self (format1 "/clients/" "/leave_types" client_id)
            "GET" None ;;
  body <- call_json resp ;;
  ret (OValue body).

Definition get_leave_types_async (self : t) (client_id : value) : M pyobj :=
  resp <- await (call_async
                   (request_async self
                      (format1 "/clients/" "/leave_types" client_id)
                      "GET" None)) ;;
  ret resp.

(** One entry of the list of balances. *)
Definition balance_entry (kv : string * value) : pyobj :=
  OValue (VDict [("leave_id", VStr (fst kv)); ("balance", snd kv)]).

Definition get_leave_balances (self : t) (employee_id : value)
    (date : date_like) : M (list pyobj) :=
  resp <- request self
            (format2 "/employees/" "/leave_balances?date=" "" employee_id
               (VStr (strftime date "%Y-%m-%d")))
            "GET" None ;;
  body <- call_json resp ;;
  entries <- call_items (OValue body) ;;
  ret (map balance_entry entries).

Definition get_leave_balances_async (self : t) (employee_id : value)
    (date : date_like) : M (list pyobj) :=
  resp <- await (call_async
                   (request_async self
                      (format2 "/employees/" "/leave_balances?date=" ""
                         employee_id (VStr (strftime date "%Y-%m-%d")))
                      "GET" None)) ;;
  entries <- call_items resp ;;
  ret (map balance_entry entries).

Definition delete_leave_day (self : t) (leave_day_id : value) : M pyobj :=
  resp <- request self (format1 "/leave_days/" "" leave_day_id) "DELETE" None ;;
  body <- call_json resp ;;
  ret (OValue body).

Definition get_payslip (self : t) (payslip_id : value) : M pyobj :=
  resp <- request self (format1 "/payslips/" "" payslip_id) "GET" None ;;
  body <- call_json resp ;;
  ret (OValue body).

Definition get_payslip_async (self : t) (payslip_id : value) : M pyobj :=
  response_json <- await (call_async
                            (request_async self
                               (format1 "/payslips/" "" payslip_id)
                               "GET" None)) ;;
  ret response_json.

Definition get_payslip_pdf (self : t) (payslip_id : value) : M pyobj :=
  resp <- request self (format1 "/payslips/" ".pdf" payslip_id) "GET" None ;;
  get_content resp.

Definition get_calculations (self : t) (employee_id : value) : M pyobj :=
  resp <- request self (format1 "/employees/" "/calculations" employee_id)
            "GET" None ;;
  body <- call_json resp ;;
  ret (OValue body).

Definition get_calculations_async (self : t) (employee_id : value) : M pyobj :=
  resp <- await (call_async
                   (request_async self
                      (format1 "/employees/" "/calculations" employee_id)
                      "GET" None)) ;;
  ret resp.

Definition get_payslip_calculations (self : t) (payslip_id : value)
    : M pyobj :=
  resp <- request self (format1 "/payslips/" "/calculations" payslip_id)
            "GET" None ;;
  body <- call_json resp ;;
  ret (OValue body).

Definition get_inherited_calculations (self : t) (employee_id : value)
    : M pyobj :=
  resp <- request self
            (format1 "/employees/" "/inherited_calculations" employee_id)
            "GET" None ;;
  body <- call_json resp ;;
  ret (OValue body).

Definition get_inherited_calculations_async (self : t) (employee_id : value)
    : M pyobj :=
  resp <- await (call_async
                   (request_async self
                      (format1 "/employees/" "/inherited_calculations"
                         employee_id)
                      "GET" None)) ;;
  ret resp.

Definition delete_calculation (self : t) (calculation_id : value) : M pyobj :=
  resp <- request self (format1 "/calculations/" "" calculation_id)
            "DELETE" None ;;
  body <- call_json resp ;;
  ret (OValue body).

Definition get_service_periods (self : t) (employee_id : value)
    : M (list pyobj) :=
  resp <- request self
            (format1 "/employees/" "/service_periods" employee_id)
            "GET" None ;;
  body <- call_json resp ;;
  items <- for_items (OValue body) ;;
  for_each (fun sp => subscript sp "service_period") items.

Definition get_service_periods_async (self : t) (employee_id : value)
    : M (list pyobj) :=
  resp <- await (call_async
                   (request_async self
                      (format1 "/employees/" "/service_periods" employee_id)
                      "GET" None)) ;;
  items <- for_items resp ;;
  for_each (fun sp => subscript sp "service_period") items.

End SimplePay.

(** Running client code from the initial state. *)
Definition run {A} (m : M A) (w : world) : outcome A * state := m w initial.

Definition result {A} (m : M A) (w : world) : outcome A := fst (run m w).

Definition events {A} (m : M A) (w : world) : list event := trace (snd (run m w)).

Definition sent_requests (evs : list event) : list http_request :=
  flat_map (fun e => match e with Sent req => [req] | Slept _ => [] end) evs.

(** ** The table of banks ([simplepay/constants.py]) *)

Module Constants.

(** The two exceptions building the table can raise. *)
Inductive error : Type :=
| IndexError
| ValueError.

Inductive result (A : Type) : Type :=
| Ok (a : A)
| Error (e : error).

Arguments Ok {A} a.
Arguments Error {A} e.

(** [str.isspace] on the code points below 256. *)
Definition isspace (c : ascii) : bool :=
  let n := N_of_ascii c in
  ((9 <=? n) && (n <=? 13) || (28 <=? n) && (n <=? 32)
   || (n =? 133) || (n =? 160))%N.

Definition is_empty (s : string) : bool :=
  match s with
  | EmptyString => true
  | String _ _ => false
  end.

(** [s.split(sep)] with a separator of one character: the pieces between
    the separators, empty ones included; [piece] is the piece being
    read. *)
Fixpoint split_on (sep : ascii) (piece s : string) : list string :=
  match s with
  | EmptyString => [piece]
  | String c rest =>
      if Ascii.eqb c sep then piece :: split_on sep "" rest
      else split_on sep (piece ++ String c "") rest
  end.

(** [s.split()]: the words between runs of whitespace; [word] is the word
    being read. *)
Fixpoint split_words (word s : string) : list string :=
  match s with
  | EmptyString => if is_empty word then [] else [word]
  | String c rest =>
      if isspace c
      then if is_empty word then split_words "" rest
           else word :: split_words "" rest
      else split_words (word ++ String c "") rest
  end.

Definition split (s : string) : list string := split_words "" s.

Fixpoint lstrip (s : string) : string :=
  match s with
  | EmptyString => ""
  | String c rest => if isspace c then lstrip rest else s
  end.

Fixpoint rstrip (s : string) : string :=
  match s with
  | EmptyString => ""
  | String c rest =>
      let rest' := rstrip rest in
      if isspace c && is_empty rest' then "" else String c rest'
  end.

Definition strip (s : string) : string := lstrip (rstrip s).

Definition is_digit (c : ascii) : bool :=
  let n := N_of_ascii c in ((48 <=? n) && (n <=? 57))%N.

(** Digits, with single underscores between digits only. *)
Fixpoint well_grouped (after_digit : bool) (s : string) : bool :=
  match s with
  | EmptyString => after_digit
  | String c rest =>
      if is_digit c then well_grouped true rest
      else if Ascii.eqb c "_" then after_digit && well_grouped false rest
      else false
  end.

Fixpoint without_underscores (s : string) : string :=
  match s with
  | EmptyString => ""
  | String c rest =>
      if Ascii.eqb c "_" then without_underscores rest
      else String c (without_underscores rest)
  end.

(** The number of digits [int] converts at most. *)
Definition max_str_digits : nat := 4300.

(** [int(s)] for a [str]: whitespace around, a sign, decimal digits. *)
Definition int (s : string) : result Z :=
  let t := strip s in
  let '(negative, body) :=
    match t with
    | String "+" rest => (false, rest)
    | String "-" rest => (true, rest)
    | _ => (false, t)
    end in
  let digits := without_underscores body in
  if well_grouped false body && (String.length digits <=? max_str_digits)%nat
  then match NilEmpty.uint_of_string digits with
       | Some d => Ok (if negative : bool then - Z.of_uint d else Z.of_uint d)
       | None => Error ValueError
       end
  else Error ValueError.

(** [words[-1]]. *)
Definition last_word (words : list string) : result string :=
  match rev words with
  | [] => Error IndexError
  | w :: _ => Ok w
  end.

(** [d[key] = name]: an entry with the key keeps its place and takes the
    name; a new key comes last. *)
Fixpoint store (key : Z) (name : string) (d : list (Z * string))
    : list (Z * string) :=
  match d with
  | [] => [(key, name)]
  | (k, v) :: rest =>
      if k =? key then (key, name) :: rest else (k, v) :: store key name rest
  end.

(** The key and the value of one line [l]: the key first. *)
Definition entry (l : string) : result (Z * string) :=
  match last_word (split l) with
  | Error e => Error e
  | Ok code =>
      match int code with
      | Error e => Error e
      | Ok key => Ok (key, join " " (removelast (split l)))
      end
  end.

(** The dictionary comprehension, over the lines that are not empty. *)
Fixpoint comprehension (lines : list string) (d : list (Z * string))
    : result (list (Z * string)) :=
  match lines with
  | [] => Ok d
  | l :: rest =>
      if is_empty l then comprehension rest d
      else match entry l with
           | Error e => Error e
           | Ok (key, name) => comprehension rest (store key name d)
           end
  end.

Definition newline : ascii := ascii_of_nat 10.
Definition tab : ascii := ascii_of_nat 9.

Definition banks_of (text : string) : result (list (Z * string)) :=
  comprehension (split_on newline "" text) [].

(** The text of the table, as the module has it: on each line a name, a
    tab and a code. *)
Definition table : string := "
ABSA Bank	1462381520
Capitec Bank	464954524
First National Bank	1809393886
Nedbank	189450181
Standard Bank	284678023
20twenty	1823577098
Access Bank South Africa Limited	946575179
African Bank	2081327577
Albaraka	2081327576
Bank of Transkei	560121584
Bank of Windhoek	1449522790
Bank Zero	2081327609
Bidvest Bank	2081327518
Boland Bank PKS	1208050630
Cape of Good Hope Bank	1057379156
Citibank South Africa	638517993
Commercial Bank of Namibia	1359491711
Discovery Bank	2081327605
Fidelity Bank	1102524399
Finbond Mutual Bank	2081327606
Future Bank Corporation	917512057
Grindrod Bank	2081327607
HBZ Bank	1651121208
HSBC	1229410299
Investec Bank	359476398
Ithala	2081327574
Mercantile Bank	207912213
Natal Building Society	2070105475
Old Mutual	1347296834
People's Bank	1695012897
Permanent Bank	302049463
Pick 'n Pay Go Banking	1044414317
Postbank	2081327517
Rand Merchant Bank	659107544
Saambou Bank	185186574
SASFIN Bank	2081327590
Tyme Digital Bank	2081327592
UBank (formerly Teba Bank)	2081327519
Unibank	2081327516
VBS Mutual Bank	2081327575
".

Definition BANKS : result (list (Z * string)) := banks_of table.

(** A word: not empty, and without whitespace. *)
Fixpoint no_space (s : string) : bool :=
  match s with
  | EmptyString => true
  | String c rest => negb (isspace c) && no_space rest
  end.

Definition is_word (s : string) : bool := negb (is_empty s) && no_space s.

Fixpoint all_space (s : string) : bool :=
  match s with
  | EmptyString => true
  | String c rest => isspace c && all_space rest
  end.

Fixpoint distinct (keys : list Z) : bool :=
  match keys with
  | [] => true
  | k :: rest => negb (existsb (Z.eqb k) rest) && distinct rest
  end.

(** The line of the table for a code and the words of a name, and the
    text of a table with such lines: a line break first, and one after
    each line. *)
Definition line_of (row : Z * list string) : string :=
  join " " (snd row) ++ String tab (str_int (fst row)).

Fixpoint lines_text (rows : list (Z * list string)) : string :=
  match rows with
  | [] => ""
  | row :: rest => line_of row ++ String newline (lines_text rest)
  end.

Definition render (rows : list (Z * list string)) : string :=
  String newline (lines_text rows).

Definition row_ok (row : Z * list string) : bool :=
  forallb is_word (snd row)
  && (String.length (str_int (fst row)) <=? max_str_digits)%nat.

Fixpoint no_newline (s : string) : bool :=
  match s with
  | EmptyString => true
  | String c rest => negb (Ascii.eqb c newline) && no_newline rest
  end.

End Constants.

(** ** Vocabulary of the statements *)

(** The keyword argument a wrapper passes for the body [payload]. *)
Definition kwarg (payload : option value) : option pyobj :=
  option_map OValue payload.

(** The request both executors build for a resource. *)
Definition request_of (self : SimplePay.t) (resource method : string)
    (payload : option value) : http_request :=
  mk_request method (SimplePay._URL ++ resource) (SimplePay.auth_headers self)
    payload.

(** The delay the non-blocking executor draws in state [s], in seconds. *)
Definition sleep_time_of (w : world) (s : state) : Q :=
  (inject_Z (20 + random w (draws s) mod (100 - 20)) / 100)%Q.

Definition milliseconds (seconds : Q) : Q := (seconds * 1000)%Q.

(** The response the blocking executor receives when it starts in [s]. *)
Definition blocking_response (w : world) (s : state) (req : http_request)
    : response :=
  server w (trace s) req.

(** The response the non-blocking executor receives when it starts in
    [s]: the server sees the delay that came first. *)
Definition nonblocking_response (w : world) (s : state) (req : http_request)
    : response :=
  server w (trace s ++ [Slept (sleep_time_of w s)]) req.

Definition is_2xx (r : response) : Prop := 200 <= status_code r < 300.

(** A failure status other than 404, which neither library reports as
    [ok]. *)
Definition is_failure (r : response) : Prop :=
  400 <= status_code r < 600 /\ status_code r <> 404.

(** The message of the non-blocking executor for the failure [e] of the
    blocking one: a [SimplePayException] carries the status in front. *)
Definition with_status (code : Z) (e : exn) : exn :=
  match e with
  | SimplePayException m =>
      SimplePayException (VStr ("Status: " ++ str_int code ++ ": " ++ str m))
  | _ => e
  end.

(** Both executors, started in [s], receive [r] in answer to [req]. *)
Definition both_receive (w : world) (s : state) (req : http_request)
    (r : response) : Prop :=
  blocking_response w s req = r /\ nonblocking_response w s req = r.

(** Decoding, subscripting and raising touch neither the trace nor the
    generator: only [send], [sleep] and [randrange] do. *)
Definition stateless {A} (m : M A) : Prop := forall w s, snd (m w s) = s.

(** What decoding a body raises when it fails: the error of the JSON
    parser, or the one aiohttp raises on a content type that is not
    JSON. *)
Definition decoder_error (e : exn) : Prop :=
  e = JSONDecodeError \/ e = ContentTypeError.

Definition decoder_raises_its_own (r : response) : Prop :=
  forall e, json r = Raise e -> decoder_error e.

(** The two libraries decode alike what the server answers: for every
    request, the decoder of aiohttp gives for the answer to the
    non-blocking executor what the decoder of requests gives for the
    answer to the blocking one, the same value or the same exception. *)
Definition decoders_agree (w : world) (s : state) : Prop :=
  forall req,
    json (nonblocking_response w s req) = json (blocking_response w s req).

(** The server answers both executors with a 2xx status, whatever the
    request. *)
Definition all_success (w : world) (s : state) : Prop :=
  forall req,
    is_2xx (blocking_response w s req)
    /\ is_2xx (nonblocking_response w s req).

(** The state a call of the blocking executor ends in. *)
Definition after_request (s : state) (req : http_request) : state :=
  mk_state (trace s ++ [Sent req]) (draws s).

(** The state a call of the non-blocking executor ends in. *)
Definition after_request_async (w : world) (s : state) (req : http_request)
    : state :=
  mk_state (trace s ++ [Slept (sleep_time_of w s); Sent req]) (S (draws s)).

(** ** Sample exchanges *)

Module Sample.

Definition q : string := String dquote "".

Definition api : SimplePay.t := SimplePay.new "secret".

(** A server that gives the same answer to every request. *)
Definition always (r : response) (n : Z) : world :=
  mk_world (fun _ _ => r) (fun _ => n).

Definition invalid_token_text : string :=
  "{" ++ q ++ "message" ++ q ++ ": " ++ q ++ "Invalid token" ++ q ++ ", "
  ++ q ++ "errors" ++ q ++ ": [" ++ q ++ "token_invalid" ++ q ++ "]}".

Definition invalid_token : response :=
  mk_response 401 invalid_token_text invalid_token_text
    (Return (VDict [("message", VStr "Invalid token");
                    ("errors", VList [VStr "token_invalid"])])).

Definition employee_missing_text : string :=
  "{" ++ q ++ "message" ++ q ++ ": " ++ q ++ "Employee not found" ++ q ++ "}".

Definition employee_missing : response :=
  mk_response 404 employee_missing_text employee_missing_text
    (Return (VDict [("message", VStr "Employee not found")])).

(** A 404 whose body is the empty JSON object. *)
Definition bare_404 : response :=
  mk_response 404 "{}" "{}" (Return (VDict [])).

(** A 404 whose body is a page of text. *)
Definition html_404 : response :=
  mk_response 404 "<h1>Not Found</h1>" "<h1>Not Found</h1>"
    (Raise JSONDecodeError).

(** A 500 whose body is not JSON. *)
Definition server_error : response :=
  mk_response 500 "Internal Server Error" "Internal Server Error"
    (Raise JSONDecodeError).

Definition employee_text : string :=
  "{" ++ q ++ "employee" ++ q ++ ": {" ++ q ++ "id" ++ q ++ ": 7}}".

Definition employee_found : response :=
  mk_response 200 employee_text employee_text
    (Return (VDict [("employee", VDict [("id", VInt 7)])])).

Definition payslips_found : response :=
  mk_response 200 "[]" "[]" (Return (VList [])).

(** A 403 whose body has a message and no errors. *)
Definition forbidden : response :=
  mk_response 403 "" ""
    (Return (VDict [("message", VStr "Forbidden")])).

(** A 422 whose body is a JSON object without a message. *)
Definition unprocessable : response :=
  mk_response 422 "" "" (Return (VDict [("errors", VList [])])).

Definition clients_found : response :=
  mk_response 200 "" ""
    (Return (VList [VDict [("client", VDict [("id", VInt 1)])];
                    VDict [("client", VDict [("id", VInt 2)])]])).

(** A list of clients whose second entry lacks the [client] field. *)
Definition clients_malformed : response :=
  mk_response 200 "" ""
    (Return (VList [VDict [("client", VDict [("id", VInt 1)])];
                    VDict [("customer", VDict [("id", VInt 2)])]])).

Definition leave_days_found : response :=
  mk_response 200 "" ""
    (Return (VList [VList [VDict [("id", VInt 10)]; VInt 0];
                    VList [VDict [("id", VInt 11)]; VInt 0]])).

Definition balances_found : response :=
  mk_response 200 "" ""
    (Return (VDict [("101", VInt 15); ("102", VInt 3)])).

Definition pdf_found : response :=
  mk_response 200 "%PDF-1.4" "%PDF-1.4" (Raise JSONDecodeError).

Definition new_year : date_like := mk_date (fun _ => "2024-01-01").

End Sample.

(** The message the failure branch of both executors assembles from a
    decoded body: the body of their last [try]. *)
Definition assembled (body : value) : outcome value :=
  match getitem body "message" with
  | Raise e => Raise e
  | Return m =>
      match contains "errors" body with
      | Raise e => Raise e
      | Return false => Return m
      | Return true =>
          match getitem body "errors" with
          | Raise e => Raise e
          | Return errs => iadd_str m (str errs)
          end
      end
  end.

(** * Properties *)

(** ** Python values *)

Example str_errors_list : str (VList [VStr "token_invalid"]) = "['token_invalid']".
Proof. reflexivity. Qed.

Example repr_mixed :
  repr (VDict [("a", VList [VInt 1; VNone; VBool true; VStr "x'y"; VInt (-20)])])
  = "{'a': [1, None, True, " ++ String dquote ("x'y" ++ String dquote ", -20]}").
Proof. reflexivity. Qed.

Lemma append_empty_r (s : string) : s ++ "" = s.
Proof. induction s as [|c s IH]; cbn; [| rewrite IH]; reflexivity. Qed.

Lemma getitem_no_decode_error (v : value) (key : string) :
  getitem v key <> Raise JSONDecodeError.
Proof.
  destruct v; cbn; try discriminate.
  destruct (lookup key entries); discriminate.
Qed.

Lemma getitem_not_caught (v : value) (key : string) (e : exn) :
  getitem v key = Raise e -> is_JSONDecodeError e = false.
Proof.
  destruct v; cbn; try (intros [= <-]; reflexivity).
  destruct (lookup key entries); intros [= <-]; reflexivity.
Qed.

Lemma getitem_dict (entries : list (string * value)) (key : string) (x : value) :
  lookup key entries = Some x -> getitem (VDict entries) key = Return x.
Proof. intros H; cbn; rewrite H; reflexivity. Qed.

Lemma contains_dict (entries : list (string * value)) (key : string) (x : value) :
  lookup key entries = Some x -> contains key (VDict entries) = Return true.
Proof. intros H; cbn; rewrite H; reflexivity. Qed.

(** The last handler of both executors is dead code: assembling the
    message never raises the error it catches. *)
Lemma assembled_not_caught (body : value) (e : exn) :
  assembled body = Raise e -> is_JSONDecodeError e = false.
Proof.
  unfold assembled.
  destruct (getitem body "message") as [m|e1] eqn:Hm.
  - destruct body; cbn in Hm |- *; try discriminate.
    destruct (lookup "errors" entries) as [errs|].
    + destruct m; cbn; intros [= <-]; reflexivity.
    + discriminate.
  - intros [= <-]. eapply getitem_not_caught; eassumption.
Qed.


Lemma assembled_message_errors (entries : list (string * value)) (m : string)
    (errs : value) :
  lookup "message" entries = Some (VStr m) ->
  lookup "errors" entries = Some errs ->
  assembled (VDict entries) = Return (VStr (m ++ str errs)).
Proof.
  intros Hm He. unfold assembled.
  rewrite (getitem_dict _ _ _ Hm), (contains_dict _ _ _ He), (getitem_dict _ _ _ He).
  reflexivity.
Qed.


(** ** Code that leaves the state alone *)

Lemma stateless_ret {A} (a : A) : stateless (ret a).
Proof. intros w s; reflexivity. Qed.

Lemma stateless_raise {A} (e : exn) : stateless (@raise A e).
Proof. intros w s; reflexivity. Qed.

Lemma stateless_lift {A} (o : outcome A) : stateless (lift o).
Proof. intros w s; reflexivity. Qed.

Lemma stateless_bind {A B} (m : M A) (k : A -> M B) :
  stateless m -> (forall a, stateless (k a)) -> stateless (bind m k).
Proof.
  intros Hm Hk w s. unfold bind.
  specialize (Hm w s). destruct (m w s) as [[a|e] s']; cbn in Hm; subst s'.
  - apply Hk.
  - reflexivity.
Qed.

Lemma stateless_try {A} (body : M A) (catches : exn -> bool)
    (handler : exn -> M A) :
  stateless body -> (forall e, stateless (handler e)) ->
  stateless (try_except body catches handler).
Proof.
  intros Hb Hh w s. unfold try_except.
  specialize (Hb w s). destruct (body w s) as [[a|e] s']; cbn in Hb; subst s'.
  - reflexivity.
  - destruct (catches e); [apply Hh | reflexivity].
Qed.

Lemma stateless_if {A} (b : bool) (m1 m2 : M A) :
  stateless m1 -> stateless m2 -> stateless (if b then m1 else m2).
Proof. destruct b; auto. Qed.

Create HintDb stateless.
#[local] Hint Resolve stateless_ret stateless_raise stateless_lift
  stateless_bind stateless_try stateless_if : stateless.

Lemma json_kwarg_value (payload : option value) :
  SimplePay.json_kwarg (kwarg payload) = ret payload.
Proof. destruct payload; reflexivity. Qed.

(** ** The blocking executor *)

(** Unfolds an executor down to the classification of the response. *)
Ltac enter_request :=
  unfold SimplePay.request, request_of, blocking_response;
  rewrite json_kwarg_value;
  unfold bind at 1, ret at 1; unfold bind at 1, send at 1.

Ltac run_pure :=
  unfold bind, ret, raise, lift, try_except; cbn [fst snd].

Section Blocking.

Variables (self : SimplePay.t) (resource method : string)
  (payload : option value) (w : world) (s : state).

Local Abbreviation req := (request_of self resource method payload).
Local Abbreviation r := (blocking_response w s req).
Local Abbreviation call :=
  (SimplePay.request self resource method (kwarg payload) w s).

(** Whatever the answer, the request is sent, once. *)
Lemma request_state :
  snd call = mk_state (trace s ++ [Sent req]) (draws s).
Proof.
  enter_request.
  match goal with |- snd (?m _ _) = _ => enough (stateless m) as H by apply H end.
  auto 10 with stateless.
Qed.

Lemma request_404_decoded (body : value) :
  status_code r = 404 -> json r = Return body ->
  fst call = match getitem body "message" with
             | Return m => Raise (NotFound m)
             | Raise e => Raise e
             end.
Proof.
  enter_request. intros Hs Hj.
  rewrite Hs, Hj. run_pure.
  destruct (getitem body "message") eqn:Hg; cbn; try reflexivity.
  rewrite (getitem_not_caught _ _ _ Hg); reflexivity.
Qed.

(** The fallback to the raw text, for the one error the handler
    catches. *)
Lemma request_404_undecodable (e : exn) :
  status_code r = 404 -> json r = Raise e ->
  fst call = Raise (if is_JSONDecodeError e
                    then NotFound (VStr (text r)) else e).
Proof.
  enter_request. intros Hs Hj.
  rewrite Hs, Hj. run_pure. destruct (is_JSONDecodeError e); reflexivity.
Qed.

Lemma request_failure_undecodable (e : exn) :
  status_code r <> 404 -> requests_ok r = false -> json r = Raise e ->
  fst call = Raise e.
Proof.
  enter_request. intros Hs Hok Hj.
  apply Z.eqb_neq in Hs. rewrite Hs, Hok, Hj. reflexivity.
Qed.

Lemma request_failure_decoded (body : value) :
  status_code r <> 404 -> requests_ok r = false -> json r = Return body ->
  fst call = match assembled body with
             | Return m => Raise (SimplePayException m)
             | Raise e => Raise e
             end.
Proof.
  enter_request. intros Hs Hok Hj.
  apply Z.eqb_neq in Hs. rewrite Hs, Hok, Hj.
  pose proof (assembled_not_caught body) as Hdead.
  unfold assembled in *. run_pure.
  destruct (getitem body "message") as [m|e1]; cbn;
    [ destruct (contains "errors" body) as [[|]|e2]; cbn;
      [ destruct (getitem body "errors") as [errs|e3]; cbn;
        [ destruct (iadd_str m (str errs)) as [m'|e4]; cbn | ]
      | | ]
    | ];
    try reflexivity;
    rewrite (Hdead _ eq_refl); reflexivity.
Qed.

Lemma request_ok :
  status_code r <> 404 -> requests_ok r = true ->
  fst call = Return (OResponse r).
Proof.
  enter_request. intros Hs Hok.
  apply Z.eqb_neq in Hs. rewrite Hs, Hok. reflexivity.
Qed.

End Blocking.

(** ** The non-blocking executor *)

Ltac enter_request_async :=
  unfold SimplePay.request_async, request_of, nonblocking_response,
    sleep_time_of;
  unfold bind at 1, randrange at 1; unfold bind at 1, sleep at 1;
  cbn [trace draws];
  rewrite json_kwarg_value;
  unfold bind at 1, ret at 1; unfold bind at 1, send at 1;
  cbn [trace draws].

Section NonBlocking.

Variables (self : SimplePay.t) (resource method : string)
  (payload : option value) (w : world) (s : state).

Local Abbreviation req := (request_of self resource method payload).
Local Abbreviation r := (nonblocking_response w s req).
Local Abbreviation call :=
  (SimplePay.request_async self resource method (kwarg payload) w s).

(** Whatever the answer: one number drawn, the delay slept, then the
    request sent. *)
Lemma request_async_state :
  snd call = mk_state (trace s ++ [Slept (sleep_time_of w s); Sent req])
               (S (draws s)).
Proof.
  enter_request_async.
  match goal with
  | |- snd (?m _ _) = _ =>
      enough (stateless m) as H by (rewrite H, <- app_assoc; reflexivity)
  end.
  auto 10 with stateless.
Qed.

Lemma request_async_404_decoded (body : value) :
  status_code r = 404 -> json r = Return body ->
  fst call = match getitem body "message" with
             | Return m => Raise (NotFound m)
             | Raise e => Raise e
             end.
Proof.
  enter_request_async. intros Hs Hj.
  rewrite Hs, Hj. run_pure.
  destruct (getitem body "message") eqn:Hg; cbn; try reflexivity.
  rewrite (getitem_not_caught _ _ _ Hg); reflexivity.
Qed.

(** [await response.text]: the handler raises instead of falling back. *)
Lemma request_async_404_undecodable (e : exn) :
  status_code r = 404 -> json r = Raise e ->
  fst call = Raise (if is_JSONDecodeError e then TypeError else e).
Proof.
  enter_request_async. intros Hs Hj.
  rewrite Hs, Hj. run_pure. destruct (is_JSONDecodeError e); reflexivity.
Qed.

Lemma request_async_failure_undecodable (e : exn) :
  status_code r <> 404 -> aiohttp_ok r = false -> json r = Raise e ->
  fst call = Raise e.
Proof.
  enter_request_async. intros Hs Hok Hj.
  apply Z.eqb_neq in Hs. rewrite Hs, Hok, Hj. reflexivity.
Qed.

Lemma request_async_failure_decoded (body : value) :
  status_code r <> 404 -> aiohttp_ok r = false -> json r = Return body ->
  fst call = match assembled body with
             | Return m =>
                 Raise (with_status (status_code r) (SimplePayException m))
             | Raise e => Raise e
             end.
Proof.
  enter_request_async. intros Hs Hok Hj.
  apply Z.eqb_neq in Hs. rewrite Hs, Hok, Hj.
  pose proof (assembled_not_caught body) as Hdead.
  unfold assembled in *. run_pure.
  destruct (getitem body "message") as [m|e1]; cbn;
    [ destruct (contains "errors" body) as [[|]|e2]; cbn;
      [ destruct (getitem body "errors") as [errs|e3]; cbn;
        [ destruct (iadd_str m (str errs)) as [m'|e4]; cbn | ]
      | | ]
    | ];
    try reflexivity;
    rewrite (Hdead _ eq_refl); reflexivity.
Qed.

Lemma request_async_ok :
  status_code r <> 404 -> aiohttp_ok r = true ->
  fst call = match json r with
             | Return v => Return (OValue v)
             | Raise e => Raise e
             end.
Proof.
  enter_request_async. intros Hs Hok.
  apply Z.eqb_neq in Hs. rewrite Hs, Hok. run_pure.
  destruct (json _); reflexivity.
Qed.

End NonBlocking.

(** ** Statuses *)

Lemma failure_not_ok (r : response) :
  is_failure r ->
  status_code r <> 404 /\ requests_ok r = false /\ aiohttp_ok r = false.
Proof.
  unfold is_failure, requests_ok, aiohttp_ok. intros [[Hlo Hhi] Hne].
  repeat split; [assumption | | ].
  - apply Bool.negb_false_iff, andb_true_intro; split;
      [apply Z.leb_le | apply Z.ltb_lt]; assumption.
  - apply Z.ltb_ge; lia.
Qed.

Lemma success_ok (r : response) :
  is_2xx r ->
  status_code r <> 404 /\ requests_ok r = true /\ aiohttp_ok r = true.
Proof.
  unfold is_2xx, requests_ok, aiohttp_ok. intros [Hlo Hhi].
  repeat split; [lia | | ].
  - apply Bool.negb_true_iff, Bool.andb_false_iff; left.
    apply Z.leb_gt; lia.
  - apply Z.ltb_lt; lia.
Qed.

(** ** Sequencing *)

Lemma bind_return {A B} (m : M A) (k : A -> M B) (w : world) (s s' : state)
    (a : A) :
  m w s = (Return a, s') -> bind m k w s = k a w s'.
Proof. intros H; unfold bind; rewrite H; reflexivity. Qed.

Lemma bind_raise {A B} (m : M A) (k : A -> M B) (w : world) (s : state)
    (e : exn) :
  fst (m w s) = Raise e -> fst (bind m k w s) = Raise e.
Proof.
  unfold bind. destruct (m w s) as [[a|e'] s']; cbn; congruence.
Qed.

Lemma bind_state {A B} (m : M A) (k : A -> M B) (w : world) (s : state) :
  (forall a, stateless (k a)) -> snd (bind m k w s) = snd (m w s).
Proof.
  intros Hk. unfold bind. destruct (m w s) as [[a|e] s']; cbn.
  - apply Hk.
  - reflexivity.
Qed.

Lemma stateless_call_json (o : pyobj) : stateless (call_json o).
Proof. destruct o; cbn; auto with stateless. Qed.

Lemma stateless_subscript (o : pyobj) (key : string) : stateless (subscript o key).
Proof. destruct o; cbn; auto with stateless. Qed.

#[local] Hint Resolve stateless_call_json stateless_subscript : stateless.

(** The non-blocking executor never gives back a response object. *)
Lemma request_async_gives_value (self : SimplePay.t) (resource method : string)
    (payload : option value) (w : world) (s : state) (o : pyobj) :
  fst (SimplePay.request_async self resource method (kwarg payload) w s)
  = Return o ->
  exists v, o = OValue v.
Proof.
  pose proof (request_async_404_decoded self resource method payload w s) as Ha.
  pose proof (request_async_404_undecodable self resource method payload w s) as Hb.
  pose proof (request_async_ok self resource method payload w s) as Hc.
  pose proof (request_async_failure_decoded self resource method payload w s) as Hd.
  pose proof (request_async_failure_undecodable self resource method payload w s) as He.
  remember (nonblocking_response w s (request_of self resource method payload))
    as r eqn:Hr.
  clear Hr.
  destruct (Z.eq_dec (status_code r) 404) as [H404|H404].
  - destruct (json r) as [body|e] eqn:Hj.
    + rewrite (Ha _ H404 eq_refl).
      destruct (getitem body "message"); discriminate.
    + rewrite (Hb _ H404 eq_refl). discriminate.
  - destruct (aiohttp_ok r) eqn:Hok.
    + rewrite (Hc H404 eq_refl).
      destruct (json r) as [v|e]; [intros [= <-]; eauto | discriminate].
    + destruct (json r) as [body|e] eqn:Hj.
      * rewrite (Hd _ H404 eq_refl eq_refl).
        destruct (assembled body); discriminate.
      * rewrite (He _ H404 eq_refl eq_refl). discriminate.
Qed.


Lemma always_both_receive (r : response) (n : Z) (s : state)
    (req : http_request) :
  both_receive (Sample.always r n) s req r.
Proof. split; reflexivity. Qed.

(** ** Classification of responses *)

Section Claims.

Variables (self : SimplePay.t) (resource method : string)
  (payload : option value) (w : world) (s : state).

Local Abbreviation req := (request_of self resource method payload).
Local Abbreviation rb := (blocking_response w s req).
Local Abbreviation rn := (nonblocking_response w s req).
Local Abbreviation blocking :=
  (fst (SimplePay.request self resource method (kwarg payload) w s)).
Local Abbreviation nonblocking :=
  (fst (SimplePay.request_async self resource method (kwarg payload) w s)).

(** C1, as the code has it: on a failure status other than 404 whose body
    does not decode as JSON, both executors let the decoder's exception
    through; no [SimplePayException] with the raw text is raised.  The
    blocking executor decodes before its [try], the non-blocking one
    raises again what it caught. *)
Theorem undecodable_failure_escapes (r : response) (e : exn) :
  both_receive w s req r -> is_failure r -> json r = Raise e ->
  blocking = Raise e /\ nonblocking = Raise e.
Proof.
  intros [Hb Hn] Hf Hj.
  destruct (failure_not_ok _ Hf) as (H404 & Hrok & Haok).
  split.
  - apply request_failure_undecodable; rewrite Hb; assumption.
  - apply request_async_failure_undecodable; rewrite Hn; assumption.
Qed.

(** C3, as the code has it: on a 404 whose body is a JSON object without
    a [message] entry, both executors raise [KeyError('message')]; the
    handler catches decoding errors only, and no [NotFound] with the raw
    text is raised. *)
Theorem not_found_without_message_escapes (r : response)
    (entries : list (string * value)) :
  both_receive w s req r -> status_code r = 404 ->
  json r = Return (VDict entries) -> lookup "message" entries = None ->
  blocking = Raise (KeyError (VStr "message"))
  /\ nonblocking = Raise (KeyError (VStr "message")).
Proof.
  intros [Hb Hn] H404 Hj Hm.
  split.
  - rewrite (request_404_decoded self resource method payload w s
               (VDict entries)) by (rewrite Hb; assumption).
    cbn. rewrite Hm. reflexivity.
  - rewrite (request_async_404_decoded self resource method payload w s
               (VDict entries)) by (rewrite Hn; assumption).
    cbn. rewrite Hm. reflexivity.
Qed.


(** C4, amended: on a failure status other than 404, when the decoder of
    an executor decodes the body to a JSON object with a [message] string
    and an [errors] entry, the blocking executor raises
    [SimplePayException] with the message followed by [str(errors)], and
    the non-blocking executor raises it with [Status: <code>: ] in front
    of the same text.  Each executor is taken on the response it
    receives and on what its own decoder gives. *)
Theorem failure_message_with_errors (entries : list (string * value))
    (m : string) (errs : value) :
  lookup "message" entries = Some (VStr m) ->
  lookup "errors" entries = Some errs ->
  (is_failure rb -> json rb = Return (VDict entries) ->
   blocking = Raise (SimplePayException (VStr (m ++ str errs))))
  /\ (is_failure rn -> json rn = Return (VDict entries) ->
      nonblocking =
        Raise (SimplePayException
                 (VStr ("Status: " ++ str_int (status_code rn) ++ ": "
                        ++ m ++ str errs)))).
Proof.
  intros Hm He.
  pose proof (assembled_message_errors _ _ _ Hm He) as Hasm.
  split; intros Hf Hj; destruct (failure_not_ok _ Hf) as (H404 & Hrok & Haok).
  - rewrite (request_failure_decoded self resource method payload w s
               (VDict entries) H404 Hrok Hj).
    rewrite Hasm. reflexivity.
  - rewrite (request_async_failure_decoded self resource method payload w s
               (VDict entries) H404 Haok Hj).
    rewrite Hasm. reflexivity.
Qed.

(** C5, amended: on a 2xx status the blocking executor raises nothing and
    returns the response as it received it; the non-blocking executor
    returns the decoded JSON body of the response, and lets the decoder's
    exception through when the body does not decode. *)
Theorem success_returns (r : response) :
  both_receive w s req r -> is_2xx r ->
  blocking = Return (OResponse r)
  /\ nonblocking = match json r with
                   | Return v => Return (OValue v)
                   | Raise e => Raise e
                   end.
Proof.
  intros [Hb Hn] Hs.
  destruct (success_ok _ Hs) as (H404 & Hrok & Haok).
  split.
  - rewrite (request_ok self resource method payload w s)
      by (rewrite Hb; assumption).
    rewrite Hb. reflexivity.
  - rewrite (request_async_ok self resource method payload w s)
      by (rewrite Hn; assumption).
    rewrite Hn. reflexivity.
Qed.

End Claims.

(** ** Delay *)

Lemma sleep_time_range (w : world) (s : state) :
  (200 <= milliseconds (sleep_time_of w s) < 1000)%Q.
Proof.
  unfold milliseconds, sleep_time_of.
  pose proof (Z.mod_pos_bound (random w (draws s)) (100 - 20) eq_refl) as Hk.
  set (k := random w (draws s) mod (100 - 20)) in *.
  clearbody k.
  unfold Qle, Qlt, Qdiv, Qmult, Qinv, inject_Z; cbn -[Z.add Z.mul]. lia.
Qed.

(** Every integer of the range is a possible draw. *)
Lemma randrange_onto (lo hi k : Z) (s : state) :
  lo <= k < hi ->
  exists w, fst (randrange lo hi w s) = Return k.
Proof.
  intros Hk. exists (mk_world (fun _ _ => Sample.bare_404) (fun _ => k - lo)).
  unfold randrange; cbn. f_equal. rewrite Z.mod_small; lia.
Qed.

(** ** Wrappers *)

Section Wrappers.

Variables (self : SimplePay.t) (employee_id : value) (w : world) (s : state).

(** C6: [create_calculation] stops at the name [data], which nothing
    binds: it raises [NameError] with the state as it found it, so no
    request at all is sent, and the calculation reaches no endpoint. *)
Theorem create_calculation_name_error (calculation : value) :
  SimplePay.create_calculation self employee_id calculation w s
  = (Raise (NameError "data"), s)
  /\ sent_requests
       (events (SimplePay.create_calculation self employee_id calculation) w)
     = [].
Proof. split; reflexivity. Qed.

(** C7: [add_leave_days] sends one request, a POST to the bulk creation
    endpoint of the employee, whose body is [{"dates": dates}] with one
    entry of [dates] per input date, in input order, each with the date,
    [hours] set to [None] and the type id. *)
Theorem add_leave_days_request (type_id : Z) (leave_days : list string) :
  exists dates : list value,
    trace (snd (SimplePay.add_leave_days self employee_id type_id leave_days w s))
    = (trace s
       ++ [Sent (mk_request "POST"
                   (SimplePay._URL ++ "/employees/" ++ str employee_id
                    ++ "/leave_days/create_multiple")
                   [("Authorization", SimplePay.key self);
                    ("Content-type", "application/json")]
                   (Some (VDict [("dates", VList dates)])))])%list
    /\ List.length dates = List.length leave_days
    /\ forall i date,
         nth_error leave_days i = Some date ->
         nth_error dates i
         = Some (VDict [("date", VStr date); ("hours", VNone);
                        ("type_id", VInt type_id)]).
Proof.
  eexists. split; [| split].
  - unfold SimplePay.add_leave_days.
    rewrite bind_state by auto with stateless.
    match goal with
    | |- context [SimplePay.request ?a ?b ?c (Some (OValue ?d))] =>
        change (SimplePay.request a b c (Some (OValue d)))
          with (SimplePay.request a b c (kwarg (Some d)))
    end.
    rewrite request_state. reflexivity.
  - apply length_map.
  - intros i date Hi. rewrite nth_error_map, Hi. reflexivity.
Qed.

(** C8: the non-blocking executor sleeps, then sends, whatever number is
    drawn, and the delay is at least 200 ms and less than 1000 ms; so it
    is for [get_employee_async], which awaits it. *)
Theorem delay_before_dispatch (resource method : string)
    (payload : option value) :
  (exists t,
      trace (snd (SimplePay.request_async self resource method
                    (kwarg payload) w s))
      = (trace s
         ++ [Slept t; Sent (request_of self resource method payload)])%list
      /\ (200 <= milliseconds t < 1000)%Q)
  /\ (exists t,
         trace (snd (SimplePay.get_employee_async self employee_id w s))
         = (trace s
            ++ [Slept t;
                Sent (request_of self ("/employees/" ++ str employee_id)
                        "GET" None)])%list
         /\ (200 <= milliseconds t < 1000)%Q).
Proof.
  split; exists (sleep_time_of w s); (split; [| apply sleep_time_range]).
  - rewrite request_async_state. reflexivity.
  - unfold SimplePay.get_employee_async.
    rewrite bind_state by auto with stateless.
    change (trace (snd (SimplePay.request_async self
                          (format1 "/employees/" "" employee_id) "GET"
                          (kwarg None) w s))
            = (trace s
               ++ [Slept (sleep_time_of w s);
                   Sent (request_of self ("/employees/" ++ str employee_id)
                           "GET" None)])%list).
    rewrite request_async_state. unfold format1.
    rewrite append_empty_r. reflexivity.
Qed.

End Wrappers.

Section AsyncWrappers.

Variables (self : SimplePay.t) (employee_id : value) (w : world) (s : state).

(** C9: [get_leave_days_async] does not await the executor: iterating
    over the coroutine raises [TypeError] with the state as it was, so
    nothing was slept, nothing sent, and no list is returned. *)
Theorem get_leave_days_async_type_error :
  SimplePay.get_leave_days_async self employee_id w s = (Raise TypeError, s)
  /\ sent_requests (events (SimplePay.get_leave_days_async self employee_id) w)
     = [].
Proof. split; reflexivity. Qed.

(** What [get_payslips_async] makes of the executor's outcome. *)
Lemma get_payslips_async_outcome :
  fst (SimplePay.get_payslips_async self employee_id w s)
  = match fst (SimplePay.request_async self
                 (format1 "/employees/" "/payslips" employee_id) "GET"
                 (kwarg None) w s) with
    | Return _ => Raise (AttributeError "json")
    | Raise e => Raise e
    end.
Proof.
  pose proof (request_async_gives_value self
                (format1 "/employees/" "/payslips" employee_id) "GET" None w s)
    as Hvalue.
  unfold SimplePay.get_payslips_async, SimplePay.call_async, await.
  change (kwarg None) with (@None pyobj) in *.
  unfold bind at 1.
  destruct (SimplePay.request_async self
              (format1 "/employees/" "/payslips" employee_id) "GET" None w s)
    as [[o|e] s'] eqn:Hrun; cbn [fst] in *.
  - destruct (Hvalue o eq_refl) as [v ->]. reflexivity.
  - reflexivity.
Qed.

(** C10, amended: [get_payslips_async] never returns a list of
    payslips.  On a 2xx response whose body the executor decoded, what
    the executor returns is the decoded body, which has no [json]
    method, and the method raises [AttributeError]; on a 2xx response
    whose body the decoder refuses, the executor itself raises the
    decoder's exception. *)
Theorem get_payslips_async_never_returns :
  let r := nonblocking_response w s
             (request_of self
                ("/employees/" ++ str employee_id ++ "/payslips") "GET" None) in
  (forall payslips,
      fst (SimplePay.get_payslips_async self employee_id w s)
      <> Return payslips)
  /\ (is_2xx r ->
      fst (SimplePay.get_payslips_async self employee_id w s)
      = match json r with
        | Return _ => Raise (AttributeError "json")
        | Raise e => Raise e
        end).
Proof.
  intros r. rewrite get_payslips_async_outcome. split.
  - intros payslips. destruct (fst _); discriminate.
  - intros Hs. destruct (success_ok _ Hs) as (H404 & _ & Haok).
    rewrite (request_async_ok self
               (format1 "/employees/" "/payslips" employee_id) "GET" None w s
               H404 Haok).
    change (nonblocking_response w s
              (request_of self
                 (format1 "/employees/" "/payslips" employee_id) "GET" None))
      with r.
    destruct (json r); reflexivity.
Qed.

End AsyncWrappers.

(** ** The sample exchanges *)

Lemma server_error_sample_raises_decode_error :
  is_failure Sample.server_error
  /\ fst (SimplePay.request Sample.api "/clients" "GET" None
            (Sample.always Sample.server_error 0) initial)
     = Raise JSONDecodeError
  /\ fst (SimplePay.request_async Sample.api "/clients" "GET" None
            (Sample.always Sample.server_error 0) initial)
     = Raise JSONDecodeError.
Proof.
  assert (Hf : is_failure Sample.server_error) by (unfold is_failure; cbn; lia).
  split; [exact Hf|].
  apply (undecodable_failure_escapes Sample.api "/clients" "GET" None
           (Sample.always Sample.server_error 0) initial
           Sample.server_error JSONDecodeError).
  - split; reflexivity.
  - exact Hf.
  - reflexivity.
Defined.

Lemma empty_object_404_sample_raises_key_error :
  lookup "message" [] = None
  /\ fst (SimplePay.request Sample.api "/employees/1" "GET" None
            (Sample.always Sample.bare_404 0) initial)
     = Raise (KeyError (VStr "message"))
  /\ fst (SimplePay.request_async Sample.api "/employees/1" "GET" None
            (Sample.always Sample.bare_404 0) initial)
     = Raise (KeyError (VStr "message")).
Proof.
  split; [reflexivity|].
  apply (not_found_without_message_escapes Sample.api "/employees/1" "GET" None
           (Sample.always Sample.bare_404 0) initial Sample.bare_404 []).
  - split; reflexivity.
  - reflexivity.
  - reflexivity.
  - reflexivity.
Defined.



(** C4, as stated, fails for the non-blocking executor: its message
    starts with the status. *)
Lemma nonblocking_message_has_status :
  result (SimplePay.request_async Sample.api "/clients" "GET" None)
    (Sample.always Sample.invalid_token 0)
  = Raise (SimplePayException
             (VStr "Status: 401: Invalid token['token_invalid']"))
  /\ result (SimplePay.request_async Sample.api "/clients" "GET" None)
       (Sample.always Sample.invalid_token 0)
     <> Raise (SimplePayException
                 (VStr ("Invalid token" ++ str (VList [VStr "token_invalid"])))).
Proof. split; [reflexivity | discriminate]. Qed.

Lemma invalid_token_sample_messages :
  is_failure Sample.invalid_token
  /\ fst (SimplePay.request Sample.api "/clients" "GET" None
            (Sample.always Sample.invalid_token 0) initial)
     = Raise (SimplePayException (VStr "Invalid token['token_invalid']"))
  /\ fst (SimplePay.request_async Sample.api "/clients" "GET" None
            (Sample.always Sample.invalid_token 0) initial)
     = Raise (SimplePayException
                (VStr "Status: 401: Invalid token['token_invalid']")).
Proof.
  assert (Hf : is_failure Sample.invalid_token) by (unfold is_failure; cbn; lia).
  split; [exact Hf|].
  destruct (failure_message_with_errors Sample.api "/clients" "GET" None
              (Sample.always Sample.invalid_token 0) initial
              [("message", VStr "Invalid token");
               ("errors", VList [VStr "token_invalid"])]
              "Invalid token" (VList [VStr "token_invalid"])
              eq_refl eq_refl) as [Hblocking Hnonblocking].
  split.
  - exact (Hblocking Hf eq_refl).
  - exact (Hnonblocking Hf eq_refl).
Defined.

(** C5, as stated, fails for the non-blocking executor: it returns the
    decoded body, not the response. *)
Lemma nonblocking_returns_decoded_body :
  result (SimplePay.request_async Sample.api "/employees/7" "GET" None)
    (Sample.always Sample.employee_found 0)
  = Return (OValue (VDict [("employee", VDict [("id", VInt 7)])]))
  /\ result (SimplePay.request_async Sample.api "/employees/7" "GET" None)
       (Sample.always Sample.employee_found 0)
     <> Return (OResponse Sample.employee_found).
Proof. split; [reflexivity | discriminate]. Qed.

Lemma employee_found_sample_results :
  is_2xx Sample.employee_found
  /\ fst (SimplePay.request Sample.api "/employees/7" "GET" None
            (Sample.always Sample.employee_found 0) initial)
     = Return (OResponse Sample.employee_found)
  /\ fst (SimplePay.request_async Sample.api "/employees/7" "GET" None
            (Sample.always Sample.employee_found 0) initial)
     = Return (OValue (VDict [("employee", VDict [("id", VInt 7)])])).
Proof.
  assert (Hs : is_2xx Sample.employee_found) by (unfold is_2xx; cbn; lia).
  split; [exact Hs|].
  apply (success_returns Sample.api "/employees/7" "GET" None
           (Sample.always Sample.employee_found 0) initial
           Sample.employee_found).
  - split; reflexivity.
  - exact Hs.
Defined.

Lemma empty_payslips_sample_raises :
  is_2xx Sample.payslips_found
  /\ fst (SimplePay.get_payslips_async Sample.api (VInt 7)
            (Sample.always Sample.payslips_found 0) initial)
     = Raise (AttributeError "json").
Proof.
  assert (Hs : is_2xx Sample.payslips_found) by (unfold is_2xx; cbn; lia).
  split; [exact Hs|].
  exact (proj2 (get_payslips_async_never_returns Sample.api (VInt 7)
                  (Sample.always Sample.payslips_found 0) initial)
           Hs).
Defined.

(** C10, as stated, fails on a 2xx response whose body is not JSON: the
    executor raises the decoder's exception, and no [AttributeError] is
    raised. *)
Lemma payslips_async_decoder_error_on_pdf :
  is_2xx Sample.pdf_found
  /\ result (SimplePay.get_payslips_async Sample.api (VInt 7))
       (Sample.always Sample.pdf_found 0)
     = Raise JSONDecodeError
  /\ result (SimplePay.get_payslips_async Sample.api (VInt 7))
       (Sample.always Sample.pdf_found 0)
     <> Raise (AttributeError "json").
Proof.
  split; [unfold is_2xx; cbn; lia|].
  split; [reflexivity | discriminate].
Qed.

(** ** The scenarios of the specification *)

Example employee_not_found_scenario :
  result (SimplePay.get_employee Sample.api (VInt 1))
    (Sample.always Sample.employee_missing 0)
  = Raise (NotFound (VStr "Employee not found")).
Proof. reflexivity. Qed.

Example not_found_falls_back_to_text :
  result (SimplePay.get_employee Sample.api (VInt 1))
    (Sample.always Sample.html_404 0)
  = Raise (NotFound (VStr "<h1>Not Found</h1>")).
Proof. reflexivity. Qed.

Example not_found_fallback_fails_when_awaited :
  result (SimplePay.get_employee_async Sample.api (VInt 1))
    (Sample.always Sample.html_404 0)
  = Raise TypeError.
Proof. reflexivity. Qed.

Example add_leave_days_scenario :
  sent_requests
    (events (SimplePay.add_leave_days Sample.api (VStr "12") 5
               ["2024-01-01"; "2024-01-02"])
       (Sample.always Sample.employee_found 0))
  = [mk_request "POST"
       "https://www.simplepay.co.za/api/v1/employees/12/leave_days/create_multiple"
       [("Authorization", "secret"); ("Content-type", "application/json")]
       (Some (VDict
                [("dates",
                  VList [VDict [("date", VStr "2024-01-01"); ("hours", VNone);
                                ("type_id", VInt 5)];
                         VDict [("date", VStr "2024-01-02"); ("hours", VNone);
                                ("type_id", VInt 5)]])]))].
Proof. reflexivity. Qed.

Example get_employee_async_scenario :
  run (SimplePay.get_employee_async Sample.api (VInt 7))
    (Sample.always Sample.employee_found 79)
  = (Return (OValue (VDict [("id", VInt 7)])),
     mk_state
       [Slept (99 # 100);
        Sent (mk_request "GET"
                "https://www.simplepay.co.za/api/v1/employees/7"
                [("Authorization", "secret");
                 ("Content-type", "application/json")]
                None)]
       1).
Proof. reflexivity. Qed.

(** * Further properties *)

(** ** Whole runs of the executors *)

Lemma stateless_for_items (o : pyobj) : stateless (for_items o).
Proof. destruct o; cbn; auto with stateless. Qed.

Lemma stateless_subscript_index (o : pyobj) (i : nat) :
  stateless (subscript_index o i).
Proof.
  destruct o; cbn; auto with stateless.
  destruct (String.get i b); auto with stateless.
Qed.

Lemma stateless_call_items (o : pyobj) : stateless (call_items o).
Proof. destruct o as [[]| | | | |]; cbn; auto with stateless. Qed.

Lemma stateless_get_content (o : pyobj) : stateless (get_content o).
Proof. destruct o; cbn; auto with stateless. Qed.

Lemma stateless_for_each {A B} (f : A -> M B) (items : list A) :
  (forall x, stateless (f x)) -> stateless (for_each f items).
Proof.
  intros Hf. induction items as [|x rest IH]; cbn; auto with stateless.
Qed.

#[local] Hint Resolve stateless_for_items stateless_subscript_index
  stateless_call_items stateless_get_content stateless_for_each : stateless.

Lemma pair_of_parts {A B} (p : A * B) (a : A) (b : B) :
  fst p = a -> snd p = b -> p = (a, b).
Proof. destruct p; cbn; congruence. Qed.

Lemma request_run_ok (self : SimplePay.t) (resource method : string)
    (payload : option value) (w : world) (s : state) :
  is_2xx (blocking_response w s (request_of self resource method payload)) ->
  SimplePay.request self resource method (kwarg payload) w s
  = (Return (OResponse
               (blocking_response w s
                  (request_of self resource method payload))),
     after_request s (request_of self resource method payload)).
Proof.
  intros Hs. destruct (success_ok _ Hs) as (H404 & Hok & _).
  apply pair_of_parts.
  - apply request_ok; assumption.
  - apply request_state.
Qed.

Lemma request_async_run_ok (self : SimplePay.t) (resource method : string)
    (payload : option value) (w : world) (s : state) (body : value) :
  is_2xx (nonblocking_response w s (request_of self resource method payload)) ->
  json (nonblocking_response w s (request_of self resource method payload))
  = Return body ->
  SimplePay.request_async self resource method (kwarg payload) w s
  = (Return (OValue body),
     after_request_async w s (request_of self resource method payload)).
Proof.
  intros Hs Hj. destruct (success_ok _ Hs) as (H404 & _ & Hok).
  apply pair_of_parts.
  - rewrite request_async_ok by assumption. rewrite Hj. reflexivity.
  - apply request_async_state.
Qed.

Lemma getitem_raises (v : value) (key : string) (e : exn) :
  getitem v key = Raise e -> e = KeyError (VStr key) \/ e = TypeError.
Proof.
  destruct v; cbn; try (intros [= <-]; right; reflexivity).
  destruct (lookup key entries); [discriminate | intros [= <-]; left; reflexivity].
Qed.

Lemma assembled_raises (body : value) (e : exn) :
  assembled body = Raise e -> e = KeyError (VStr "message") \/ e = TypeError.
Proof.
  unfold assembled. destruct body; cbn; try (intros [= <-]; right; reflexivity).
  destruct (lookup "message" entries) as [m|];
    [| intros [= <-]; left; reflexivity].
  destruct (lookup "errors" entries) as [errs|]; [| discriminate].
  destruct m; cbn; try discriminate; intros [= <-]; right; reflexivity.
Qed.

Lemma assembled_message_alone (entries : list (string * value)) (m : value) :
  lookup "message" entries = Some m -> lookup "errors" entries = None ->
  assembled (VDict entries) = Return m.
Proof. intros Hm He. unfold assembled; cbn. rewrite Hm, He. reflexivity. Qed.

Lemma assembled_lookup_error (body : value) (e : exn) :
  getitem body "message" = Raise e -> assembled body = Raise e.
Proof. intros H. unfold assembled. rewrite H. reflexivity. Qed.

Lemma requests_ok_status (r : response) :
  requests_ok r = true -> ~ 400 <= status_code r < 600.
Proof.
  unfold requests_ok. intros H [Hlo Hhi].
  apply Bool.negb_true_iff, Bool.andb_false_iff in H.
  destruct H as [H|H]; [apply Z.leb_gt in H | apply Z.ltb_ge in H]; lia.
Qed.

Lemma requests_not_ok_status (r : response) :
  requests_ok r = false -> 400 <= status_code r < 600.
Proof.
  unfold requests_ok. intros H.
  apply Bool.negb_false_iff, Bool.andb_true_iff in H.
  destruct H as [Hlo Hhi]. apply Z.leb_le in Hlo. apply Z.ltb_lt in Hhi. lia.
Qed.

Section Executors.

Variables (self : SimplePay.t) (resource method : string)
  (payload : option value) (w : world) (s : state).

Local Abbreviation req := (request_of self resource method payload).
Local Abbreviation rb := (blocking_response w s req).
Local Abbreviation rn := (nonblocking_response w s req).
Local Abbreviation blocking :=
  (fst (SimplePay.request self resource method (kwarg payload) w s)).
Local Abbreviation nonblocking :=
  (fst (SimplePay.request_async self resource method (kwarg payload) w s)).

(** The outcome of the blocking executor, case by case. *)
Lemma request_cases :
  (status_code rb = 404
   /\ ((exists body, json rb = Return body
                     /\ blocking = match getitem body "message" with
                                   | Return m => Raise (NotFound m)
                                   | Raise e => Raise e
                                   end)
       \/ (exists e, json rb = Raise e
                     /\ blocking = Raise (if is_JSONDecodeError e
                                          then NotFound (VStr (text rb))
                                          else e))))
  \/ (is_failure rb
      /\ ((exists body, json rb = Return body
                        /\ blocking = match assembled body with
                                      | Return m => Raise (SimplePayException m)
                                      | Raise e => Raise e
                                      end)
          \/ (exists e, json rb = Raise e /\ blocking = Raise e)))
  \/ (status_code rb <> 404 /\ ~ 400 <= status_code rb < 600
      /\ blocking = Return (OResponse rb)).
Proof.
  destruct (Z.eq_dec (status_code rb) 404) as [H404|H404].
  - left. split; [assumption|].
    destruct (json rb) as [body|e] eqn:Hj.
    + left. exists body. split; [reflexivity|].
      apply request_404_decoded; assumption.
    + right. exists e. split; [reflexivity|].
      apply request_404_undecodable; assumption.
  - right. destruct (requests_ok rb) eqn:Hok.
    + right. split; [assumption|]. split; [apply requests_ok_status; assumption|].
      apply request_ok; assumption.
    + left. split; [split; [apply requests_not_ok_status|]; assumption|].
      destruct (json rb) as [body|e] eqn:Hj.
      * left. exists body. split; [reflexivity|].
        apply request_failure_decoded; assumption.
      * right. exists e. split; [reflexivity|].
        apply request_failure_undecodable; assumption.
Qed.

(** The outcome of the non-blocking executor, case by case. *)
Lemma request_async_cases :
  (status_code rn = 404
   /\ ((exists body, json rn = Return body
                     /\ nonblocking = match getitem body "message" with
                                      | Return m => Raise (NotFound m)
                                      | Raise e => Raise e
                                      end)
       \/ (exists e, json rn = Raise e
                     /\ nonblocking = Raise (if is_JSONDecodeError e
                                             then TypeError else e))))
  \/ (status_code rn <> 404 /\ 400 <= status_code rn
      /\ ((exists body,
              json rn = Return body
              /\ nonblocking
                 = match assembled body with
                   | Return m =>
                       Raise (with_status (status_code rn)
                                (SimplePayException m))
                   | Raise e => Raise e
                   end)
          \/ (exists e, json rn = Raise e /\ nonblocking = Raise e)))
  \/ (status_code rn < 400
      /\ nonblocking = match json rn with
                       | Return v => Return (OValue v)
                       | Raise e => Raise e
                       end).
Proof.
  destruct (Z.eq_dec (status_code rn) 404) as [H404|H404].
  - left. split; [assumption|].
    destruct (json rn) as [body|e] eqn:Hj.
    + left. exists body. split; [reflexivity|].
      apply request_async_404_decoded; assumption.
    + right. exists e. split; [reflexivity|].
      apply request_async_404_undecodable; assumption.
  - right. destruct (aiohttp_ok rn) eqn:Hok.
    + right. split; [apply Z.ltb_lt; exact Hok|].
      apply request_async_ok; assumption.
    + left. split; [assumption|]. split; [apply Z.ltb_ge; exact Hok|].
      destruct (json rn) as [body|e] eqn:Hj.
      * left. exists body. split; [reflexivity|].
        apply request_async_failure_decoded; assumption.
      * right. exists e. split; [reflexivity|].
        apply request_async_failure_undecodable; assumption.
Qed.

End Executors.

(** ** What the executors return and raise *)

Section ExecutorProperties.

Variables (self : SimplePay.t) (resource method : string)
  (payload : option value) (w : world) (s : state).

Local Abbreviation req := (request_of self resource method payload).
Local Abbreviation rb := (blocking_response w s req).
Local Abbreviation rn := (nonblocking_response w s req).
Local Abbreviation blocking :=
  (fst (SimplePay.request self resource method (kwarg payload) w s)).
Local Abbreviation nonblocking :=
  (fst (SimplePay.request_async self resource method (kwarg payload) w s)).

(** X1: what the blocking executor returns is the response it received,
    and a response it returns has neither status 404 nor a 4xx or 5xx
    status. *)
Theorem request_returns_received_ok_response (o : pyobj) :
  blocking = Return o ->
  o = OResponse rb
  /\ status_code rb <> 404 /\ ~ 400 <= status_code rb < 600.
Proof.
  intros Hret.
  destruct (request_cases self resource method payload w s)
    as [(_ & [(body & _ & H)|(e & _ & H)])
       |[(_ & [(body & _ & H)|(e & _ & H)])
        |(H404 & Hok & H)]];
    rewrite H in Hret.
  - destruct (getitem body "message"); discriminate.
  - discriminate.
  - destruct (assembled body); discriminate.
  - discriminate.
  - injection Hret as <-. auto.
Qed.

(** X2: what the non-blocking executor returns is the decoded body of a
    response whose status is below 400. *)
Theorem request_async_returns_decoded_body (o : pyobj) :
  nonblocking = Return o ->
  exists body, json rn = Return body /\ o = OValue body
               /\ status_code rn < 400.
Proof.
  intros Hret.
  destruct (request_async_cases self resource method payload w s)
    as [(_ & [(body & _ & H)|(e & _ & H)])
       |[(_ & _ & [(body & _ & H)|(e & _ & H)])
        |(Hok & H)]];
    rewrite H in Hret.
  - destruct (getitem body "message"); discriminate.
  - discriminate.
  - destruct (assembled body); discriminate.
  - discriminate.
  - destruct (json rn) as [v|e]; [| discriminate].
    injection Hret as <-. exists v. auto.
Qed.

(** X3: when decoding raises nothing but its own errors, each executor
    raises [NotFound] on a 404 only, and [SimplePayException] only on a
    status that is not 404 and that its library reports as not ok: 4xx
    or 5xx for the blocking executor, 400 and above for the non-blocking
    one. *)
Theorem failure_kind_tells_status (m : value) :
  decoder_raises_its_own rb -> decoder_raises_its_own rn ->
  (blocking = Raise (NotFound m) -> status_code rb = 404)
  /\ (blocking = Raise (SimplePayException m) -> is_failure rb)
  /\ (nonblocking = Raise (NotFound m) -> status_code rn = 404)
  /\ (nonblocking = Raise (SimplePayException m) ->
      status_code rn <> 404 /\ 400 <= status_code rn).
Proof.
  intros Hdec Hdecn. split; [| split; [| split]].
  - destruct (request_cases self resource method payload w s)
      as [(H404 & _)
         |[(Hf & [(body & _ & H)|(e & Hj & H)])
          |(H404 & Hok & H)]];
      [intros _; assumption | rewrite H; intros Hraise; exfalso ..].
    + destruct (assembled body) as [x|e] eqn:Ha; [discriminate|].
      destruct (assembled_raises _ _ Ha) as [-> | ->]; discriminate.
    + destruct (Hdec e Hj) as [-> | ->]; discriminate.
    + discriminate.
  - destruct (request_cases self resource method payload w s)
      as [(H404 & [(body & _ & H)|(e & Hj & H)])
         |[(Hf & _)
          |(H404 & Hok & H)]];
      [rewrite H; intros Hraise; exfalso .. | intros _; assumption
       | rewrite H; intros Hraise; exfalso].
    + destruct (getitem body "message") as [x|e] eqn:Hg; [discriminate|].
      destruct (getitem_raises _ _ _ Hg) as [-> | ->]; discriminate.
    + destruct (Hdec e Hj) as [-> | ->]; discriminate.
    + discriminate.
  - destruct (request_async_cases self resource method payload w s)
      as [(H404 & _)
         |[(_ & _ & [(body & _ & H)|(e & Hj & H)])
          |(Hok & H)]];
      [intros _; assumption | rewrite H; intros Hraise; exfalso ..].
    + destruct (assembled body) as [x|e] eqn:Ha; [discriminate|].
      destruct (assembled_raises _ _ Ha) as [-> | ->]; discriminate.
    + destruct (Hdecn e Hj) as [-> | ->]; discriminate.
    + destruct (json rn) as [v|e] eqn:Hj; [discriminate|].
      destruct (Hdecn e Hj) as [-> | ->]; discriminate.
  - destruct (request_async_cases self resource method payload w s)
      as [(H404 & [(body & _ & H)|(e & Hj & H)])
         |[(H404 & Hge & _)
          |(Hok & H)]];
      [rewrite H; intros Hraise; exfalso .. | intros _; split; assumption
       | rewrite H; intros Hraise; exfalso].
    + destruct (getitem body "message") as [x|e] eqn:Hg; [discriminate|].
      destruct (getitem_raises _ _ _ Hg) as [-> | ->]; discriminate.
    + destruct (Hdecn e Hj) as [-> | ->]; discriminate.
    + destruct (json rn) as [v|e] eqn:Hj; [discriminate|].
      destruct (Hdecn e Hj) as [-> | ->]; discriminate.
Qed.

(** X4: on a 404, when the decoder of an executor decodes the body to
    a JSON object with a [message] entry, that executor raises [NotFound]
    with the value of the entry.  Each executor is taken on the response
    it receives and on what its own decoder gives. *)
Theorem not_found_carries_message (entries : list (string * value))
    (m : value) :
  lookup "message" entries = Some m ->
  (status_code rb = 404 -> json rb = Return (VDict entries) ->
   blocking = Raise (NotFound m))
  /\ (status_code rn = 404 -> json rn = Return (VDict entries) ->
      nonblocking = Raise (NotFound m)).
Proof.
  intros Hm. split; intros H404 Hj.
  - rewrite (request_404_decoded self resource method payload w s
               (VDict entries) H404 Hj).
    cbn. rewrite Hm. reflexivity.
  - rewrite (request_async_404_decoded self resource method payload w s
               (VDict entries) H404 Hj).
    cbn. rewrite Hm. reflexivity.
Qed.

(** X5: on a 404 whose body is not JSON, the blocking executor raises
    [NotFound] with the raw text of the response; the non-blocking
    executor awaits the method [response.text] without calling it and
    raises [TypeError]. *)
Theorem not_found_on_text_body (r : response) :
  both_receive w s req r -> status_code r = 404 ->
  json r = Raise JSONDecodeError ->
  blocking = Raise (NotFound (VStr (text r))) /\ nonblocking = Raise TypeError.
Proof.
  intros [Hb Hn] H404 Hj. split.
  - rewrite (request_404_undecodable self resource method payload w s
               JSONDecodeError) by (rewrite Hb; assumption).
    rewrite Hb. reflexivity.
  - rewrite (request_async_404_undecodable self resource method payload w s
               JSONDecodeError) by (rewrite Hn; assumption).
    reflexivity.
Qed.

(** X6: on a 4xx or 5xx status other than 404, when the decoder of an
    executor decodes the body to a JSON object with a [message] entry and
    no [errors] entry, the blocking executor raises [SimplePayException]
    with the value of the entry, unchanged, and the non-blocking executor
    raises it with [Status: <code>: ] followed by [str] of the value.
    Each executor is taken on the response it receives and on what its
    own decoder gives. *)
Theorem failure_message_alone (entries : list (string * value)) (m : value) :
  lookup "message" entries = Some m -> lookup "errors" entries = None ->
  (is_failure rb -> json rb = Return (VDict entries) ->
   blocking = Raise (SimplePayException m))
  /\ (is_failure rn -> json rn = Return (VDict entries) ->
      nonblocking
      = Raise (SimplePayException
                 (VStr ("Status: " ++ str_int (status_code rn) ++ ": "
                        ++ str m)))).
Proof.
  intros Hm He.
  pose proof (assembled_message_alone _ _ Hm He) as Hasm.
  split; intros Hf Hj; destruct (failure_not_ok _ Hf) as (H404 & Hrok & Haok).
  - rewrite (request_failure_decoded self resource method payload w s
               (VDict entries) H404 Hrok Hj).
    rewrite Hasm. reflexivity.
  - rewrite (request_async_failure_decoded self resource method payload w s
               (VDict entries) H404 Haok Hj).
    rewrite Hasm. reflexivity.
Qed.

(** X7: on a 4xx or 5xx status other than 404 whose decoded body has no
    [message] to read (an object without the entry, or no object at
    all), both executors let the error of the lookup through, [KeyError]
    or [TypeError]; no [SimplePayException] is raised. *)
Theorem failure_without_message_escapes (r : response) (body : value)
    (e : exn) :
  both_receive w s req r -> is_failure r -> json r = Return body ->
  getitem body "message" = Raise e ->
  blocking = Raise e /\ nonblocking = Raise e
  /\ (e = KeyError (VStr "message") \/ e = TypeError).
Proof.
  intros [Hb Hn] Hf Hj Hg.
  destruct (failure_not_ok _ Hf) as (H404 & Hrok & Haok).
  pose proof (assembled_lookup_error _ _ Hg) as Hasm. split; [| split].
  - rewrite (request_failure_decoded self resource method payload w s body)
      by (rewrite Hb; assumption).
    rewrite Hasm. reflexivity.
  - rewrite (request_async_failure_decoded self resource method payload w s
               body) by (rewrite Hn; assumption).
    rewrite Hasm. reflexivity.
  - eapply getitem_raises; eassumption.
Qed.

(** X8: whatever the server answers, a call of the blocking executor
    sends one request and draws no number; a call of the non-blocking
    executor draws one number, sleeps once and then sends one request.
    Neither sends a second request after a failure. *)
Theorem executors_send_once :
  snd (SimplePay.request self resource method (kwarg payload) w s)
  = after_request s req
  /\ snd (SimplePay.request_async self resource method (kwarg payload) w s)
     = after_request_async w s req
  /\ sent_requests (trace (after_request s req))
     = (sent_requests (trace s) ++ [req])%list
  /\ sent_requests (trace (after_request_async w s req))
     = (sent_requests (trace s) ++ [req])%list.
Proof.
  split; [apply request_state|]. split; [apply request_async_state|].
  unfold after_request, after_request_async, sent_requests; cbn [trace].
  split; rewrite flat_map_app; reflexivity.
Qed.

End ExecutorProperties.

(** ** Loops over decoded values *)

(** The loops of the wrappers read one field of each item and stop at
    the first item that lacks it. *)
Lemma for_each_reads_all (f : pyobj -> M pyobj) (g : value -> outcome value)
    (items fields : list value) (w : world) (s : state) :
  (forall v, f (OValue v) = bind (lift (g v)) (fun x => ret (OValue x))) ->
  Forall2 (fun item x => g item = Return x) items fields ->
  for_each f (map OValue items) w s = (Return (map OValue fields), s).
Proof.
  intros Hf Hall.
  induction Hall as [|item x items fields Hg _ IH]; cbn [for_each map].
  - reflexivity.
  - unfold bind at 1. rewrite Hf. unfold bind at 1, lift. rewrite Hg.
    cbn [ret]. unfold bind at 1. rewrite IH. reflexivity.
Qed.

Lemma for_each_stops (f : pyobj -> M pyobj) (g : value -> outcome value)
    (good fields rest : list value) (bad : value) (e : exn) (w : world)
    (s : state) :
  (forall v, f (OValue v) = bind (lift (g v)) (fun x => ret (OValue x))) ->
  Forall2 (fun item x => g item = Return x) good fields ->
  g bad = Raise e ->
  for_each f (map OValue (good ++ bad :: rest)) w s = (Raise e, s).
Proof.
  intros Hf Hall Hbad.
  induction Hall as [|item x items fields Hg _ IH]; cbn [for_each map app].
  - unfold bind at 1. rewrite Hf. unfold bind at 1, lift. rewrite Hbad.
    reflexivity.
  - unfold bind at 1. rewrite Hf. unfold bind at 1, lift. rewrite Hg.
    cbn [ret]. unfold bind at 1. rewrite IH. reflexivity.
Qed.

Lemma for_each_ret {A} (items : list A) (w : world) (s : state) :
  for_each (fun x => ret x) items w s = (Return items, s).
Proof.
  induction items as [|x rest IH]; cbn [for_each]; [reflexivity|].
  unfold bind at 1, ret at 1. unfold bind at 1. rewrite IH. reflexivity.
Qed.

(** A loop whose body leaves the state alone gives a result that does
    not depend on the state it starts in. *)
Lemma for_each_subscript_result (key : string) (items : list pyobj)
    (w : world) (s s' : state) :
  fst (for_each (fun o => subscript o key) items w s)
  = fst (for_each (fun o => subscript o key) items w s').
Proof.
  revert s s'. induction items as [|o rest IH]; intros s s'; cbn [for_each];
    [reflexivity|].
  unfold bind at 1 3.
  assert (Hsub : forall t, subscript o key w t
                           = (fst (subscript o key w initial), t)).
  { intros t. destruct o as [v| | | | |]; cbn; try reflexivity.
    unfold bind, lift, ret. destruct (getitem v key); reflexivity. }
  rewrite (Hsub s), (Hsub s').
  destruct (fst (subscript o key w initial)) as [x|e]; [| reflexivity].
  unfold bind at 1 2. specialize (IH s s').
  destruct (for_each _ rest w s) as [[xs|e] t];
    destruct (for_each _ rest w s') as [[xs'|e'] t']; cbn in *; congruence.
Qed.

(** ** The listing wrappers *)

Lemma subscript_value (key : string) (v : value) :
  subscript (OValue v) key
  = bind (lift (getitem v key)) (fun x => ret (OValue x)).
Proof. reflexivity. Qed.

Lemma subscript_index_value (i : nat) (v : value) :
  subscript_index (OValue v) i
  = bind (lift (getitem_index v i)) (fun x => ret (OValue x)).
Proof. reflexivity. Qed.

(** Runs a wrapper of the blocking executor on a 2xx answer whose body
    decodes to [body]: what is left is the loop over the body. *)
Ltac run_listing Hs Hj :=
  match goal with
  | |- context [SimplePay.request ?self ?res ?m None] =>
      let Hrun := fresh "Hrun" in
      pose proof (request_run_ok self res m None _ _ Hs) as Hrun;
      change (kwarg None) with (@None pyobj) in Hrun;
      rewrite (bind_return _ _ _ _ _ _ Hrun);
      unfold call_json; unfold bind at 1, lift at 1;
      rewrite Hj
  end.

Section Listings.

Variables (self : SimplePay.t) (w : world) (s : state).

(** X9: on a 2xx answer whose body is a JSON list of objects that each
    have the field, [get_clients], [get_employees] and
    [get_service_periods] return the values of the field ([client],
    [employee], [service_period]), one per item, in the order of the
    body; an empty list gives an empty list. *)
Theorem listings_return_the_fields (client_id employee_id : value)
    (items fields : list value) :
  (is_2xx (blocking_response w s (request_of self "/clients" "GET" None)) ->
   json (blocking_response w s (request_of self "/clients" "GET" None))
   = Return (VList items) ->
   Forall2 (fun item x => getitem item "client" = Return x) items fields ->
   fst (SimplePay.get_clients self w s) = Return (map OValue fields))
  /\ (is_2xx (blocking_response w s
                (request_of self ("/clients/" ++ str client_id ++ "/employees")
                   "GET" None)) ->
      json (blocking_response w s
              (request_of self ("/clients/" ++ str client_id ++ "/employees")
                 "GET" None))
      = Return (VList items) ->
      Forall2 (fun item x => getitem item "employee" = Return x) items fields ->
      fst (SimplePay.get_employees self client_id w s)
      = Return (map OValue fields))
  /\ (is_2xx (blocking_response w s
                (request_of self
                   ("/employees/" ++ str employee_id ++ "/service_periods")
                   "GET" None)) ->
      json (blocking_response w s
              (request_of self
                 ("/employees/" ++ str employee_id ++ "/service_periods")
                 "GET" None))
      = Return (VList items) ->
      Forall2 (fun item x => getitem item "service_period" = Return x)
        items fields ->
      fst (SimplePay.get_service_periods self employee_id w s)
      = Return (map OValue fields)).
Proof.
  split; [| split]; intros Hs Hj Hall.
  - unfold SimplePay.get_clients. run_listing Hs Hj.
    cbn [for_items iterate]. unfold bind at 1 2, lift, ret at 1.
    rewrite (for_each_reads_all _ (fun v => getitem v "client") items fields)
      by (auto using subscript_value).
    reflexivity.
  - unfold SimplePay.get_employees, format1. run_listing Hs Hj.
    cbn [for_items iterate]. unfold bind at 1 2, lift, ret at 1.
    rewrite (for_each_reads_all _ (fun v => getitem v "employee") items fields)
      by (auto using subscript_value).
    reflexivity.
  - unfold SimplePay.get_service_periods, format1. run_listing Hs Hj.
    cbn [for_items iterate]. unfold bind at 1 2, lift, ret at 1.
    rewrite (for_each_reads_all _ (fun v => getitem v "service_period")
               items fields)
      by (auto using subscript_value).
    reflexivity.
Qed.

End Listings.

Section MoreListings.

Variables (self : SimplePay.t) (w : world) (s : state).

(** X10: on a 2xx answer whose body is a JSON list, [get_leave_days]
    returns the first element of each item, in order; an item that is an
    empty list makes it raise [IndexError], whatever comes before and
    after. *)
Theorem get_leave_days_returns_first_elements (employee_id : value)
    (items firsts : list value) :
  is_2xx (blocking_response w s
            (request_of self
               ("/employees/" ++ str employee_id ++ "/leave_days")
               "GET" None)) ->
  Forall2 (fun item x => getitem_index item 0 = Return x) items firsts ->
  (json (blocking_response w s
           (request_of self
              ("/employees/" ++ str employee_id ++ "/leave_days")
              "GET" None))
   = Return (VList items) ->
   fst (SimplePay.get_leave_days self employee_id w s)
   = Return (map OValue firsts))
  /\ (forall rest,
         json (blocking_response w s
                 (request_of self
                    ("/employees/" ++ str employee_id ++ "/leave_days")
                    "GET" None))
         = Return (VList (items ++ VList [] :: rest)) ->
         fst (SimplePay.get_leave_days self employee_id w s)
         = Raise IndexError).
Proof.
  intros Hs Hall. split; [intros Hj | intros rest Hj].
  - unfold SimplePay.get_leave_days, format1. run_listing Hs Hj.
    cbn [for_items iterate]. unfold bind at 1 2, lift, ret at 1.
    rewrite (for_each_reads_all _ (fun v => getitem_index v 0) items firsts)
      by (auto using subscript_index_value).
    reflexivity.
  - unfold SimplePay.get_leave_days, format1. run_listing Hs Hj.
    cbn [for_items iterate]. unfold bind at 1 2, lift, ret at 1.
    rewrite (for_each_stops _ (fun v => getitem_index v 0) items firsts rest
               (VList []) IndexError)
      by (auto using subscript_index_value).
    reflexivity.
Qed.

(** X11: [get_clients] stops at the first item of the body that has no
    [client] field: it raises the error of that lookup, [KeyError] for an
    object and [TypeError] for anything else, and returns none of the
    clients read before. *)
Theorem get_clients_stops_at_malformed_item (good fields rest : list value)
    (bad : value) (e : exn) :
  is_2xx (blocking_response w s (request_of self "/clients" "GET" None)) ->
  json (blocking_response w s (request_of self "/clients" "GET" None))
  = Return (VList (good ++ bad :: rest)) ->
  Forall2 (fun item x => getitem item "client" = Return x) good fields ->
  getitem bad "client" = Raise e ->
  fst (SimplePay.get_clients self w s) = Raise e
  /\ (e = KeyError (VStr "client") \/ e = TypeError).
Proof.
  intros Hs Hj Hall Hbad. split; [| eapply getitem_raises; eassumption].
  unfold SimplePay.get_clients. run_listing Hs Hj.
  cbn [for_items iterate]. unfold bind at 1 2, lift, ret at 1.
  rewrite (for_each_stops _ (fun v => getitem v "client") good fields rest
             bad e)
    by (auto using subscript_value).
  reflexivity.
Qed.

(** X12: on a 2xx answer whose body is a JSON list, [get_payslips]
    returns the items of the body as they are, in order. *)
Theorem get_payslips_returns_items (employee_id : value)
    (items : list value) :
  is_2xx (blocking_response w s
            (request_of self
               ("/employees/" ++ str employee_id ++ "/payslips")
               "GET" None)) ->
  json (blocking_response w s
          (request_of self
             ("/employees/" ++ str employee_id ++ "/payslips")
             "GET" None))
  = Return (VList items) ->
  fst (SimplePay.get_payslips self employee_id w s)
  = Return (map OValue items).
Proof.
  intros Hs Hj.
  unfold SimplePay.get_payslips, format1. run_listing Hs Hj.
  cbn [for_items iterate]. unfold bind at 1 2, lift, ret at 1.
  rewrite for_each_ret. reflexivity.
Qed.

(** X13: on a 2xx answer whose body is a JSON object, [get_leave_balances]
    returns one entry per entry of the object, in order, each a
    dictionary with the key under [leave_id] and the value under
    [balance]; on a body that is no object it raises [AttributeError],
    the body having no [items] method. *)
Theorem get_leave_balances_reshapes (employee_id : value) (date : date_like)
    (body : value) :
  is_2xx (blocking_response w s
            (request_of self
               ("/employees/" ++ str employee_id ++ "/leave_balances?date="
                ++ strftime date "%Y-%m-%d")
               "GET" None)) ->
  json (blocking_response w s
          (request_of self
             ("/employees/" ++ str employee_id ++ "/leave_balances?date="
              ++ strftime date "%Y-%m-%d")
             "GET" None))
  = Return body ->
  match body with
  | VDict entries =>
      exists balances,
        fst (SimplePay.get_leave_balances self employee_id date w s)
        = Return balances
        /\ List.length balances = List.length entries
        /\ forall i k v,
             nth_error entries i = Some (k, v) ->
             nth_error balances i
             = Some (OValue (VDict [("leave_id", VStr k); ("balance", v)]))
  | _ =>
      fst (SimplePay.get_leave_balances self employee_id date w s)
      = Raise (AttributeError "items")
  end.
Proof.
  intros Hs Hj.
  assert (Hpath : format2 "/employees/" "/leave_balances?date=" "" employee_id
                    (VStr (strftime date "%Y-%m-%d"))
                  = "/employees/" ++ str employee_id ++ "/leave_balances?date="
                    ++ strftime date "%Y-%m-%d").
  { unfold format2. cbn [str]. rewrite append_empty_r. reflexivity. }
  unfold SimplePay.get_leave_balances. rewrite Hpath. run_listing Hs Hj.
  destruct body as [| | | | |entries]; try reflexivity.
  exists (map SimplePay.balance_entry entries). split; [reflexivity|].
  split; [apply length_map|].
  intros i k v Hi. rewrite nth_error_map, Hi. reflexivity.
Qed.

(** X14: on a 2xx answer [get_payslip_pdf] returns the bytes of the body
    and decodes nothing: a body that is not JSON is no error. *)
Theorem get_payslip_pdf_returns_content (payslip_id : value) :
  is_2xx (blocking_response w s
            (request_of self ("/payslips/" ++ str payslip_id ++ ".pdf")
               "GET" None)) ->
  fst (SimplePay.get_payslip_pdf self payslip_id w s)
  = Return (OBytes (content (blocking_response w s
                               (request_of self
                                  ("/payslips/" ++ str payslip_id ++ ".pdf")
                                  "GET" None)))).
Proof.
  intros Hs.
  pose proof (request_run_ok self ("/payslips/" ++ str payslip_id ++ ".pdf")
                "GET" None w s Hs) as Hrun.
  change (kwarg None) with (@None pyobj) in Hrun.
  unfold SimplePay.get_payslip_pdf, format1.
  rewrite (bind_return _ _ _ _ _ _ Hrun). reflexivity.
Qed.

(** X15: [create_payslip_calculation] posts the calculation as the body
    of one request to the calculations of the payslip and, on a 2xx
    answer, returns the response itself, not its decoded body. *)
Theorem create_payslip_calculation_posts (payslip_id calculation : value) :
  is_2xx (blocking_response w s
            (request_of self ("/payslips/" ++ str payslip_id ++ "/calculations")
               "POST" (Some calculation))) ->
  SimplePay.create_payslip_calculation self payslip_id calculation w s
  = (Return (OResponse
               (blocking_response w s
                  (request_of self
                     ("/payslips/" ++ str payslip_id ++ "/calculations")
                     "POST" (Some calculation)))),
     after_request s
       (request_of self ("/payslips/" ++ str payslip_id ++ "/calculations")
          "POST" (Some calculation))).
Proof.
  intros Hs.
  pose proof (request_run_ok self
                ("/payslips/" ++ str payslip_id ++ "/calculations")
                "POST" (Some calculation) w s Hs) as Hrun.
  change (kwarg (Some calculation)) with (Some (OValue calculation)) in Hrun.
  unfold SimplePay.create_payslip_calculation, format1.
  rewrite (bind_return _ _ _ _ _ _ Hrun). reflexivity.
Qed.

End MoreListings.

(** ** One request per call *)

Ltac one_request :=
  rewrite bind_state by auto 10 with stateless;
  unfold format1, format2; cbn [str]; rewrite ?append_empty_r;
  match goal with
  | |- snd (SimplePay.request ?self ?res ?m None ?w ?s) = _ =>
      exact (request_state self res m None w s)
  | |- snd (SimplePay.request ?self ?res ?m (Some (OValue ?v)) ?w ?s) = _ =>
      exact (request_state self res m (Some v) w s)
  end.

Ltac one_request_async :=
  unfold SimplePay.call_async, await;
  rewrite bind_state by auto 10 with stateless;
  unfold format1, format2; cbn [str]; rewrite ?append_empty_r;
  match goal with
  | |- snd (SimplePay.request_async ?self ?res ?m None ?w ?s) = _ =>
      exact (request_async_state self res m None w s)
  | |- snd (SimplePay.request_async ?self ?res ?m (Some (OValue ?v)) ?w ?s)
       = _ =>
      exact (request_async_state self res m (Some v) w s)
  end.

Section Endpoints.

Variables (self : SimplePay.t) (w : world) (s : state) (id : value).

(** X16: each reading wrapper of the blocking executor sends one GET
    request, to its own path under the base URL and without a body,
    whatever the server answers and whether it then returns or raises. *)
Theorem reading_wrappers_send_one_get (date : date_like) :
  snd (SimplePay.get_clients self w s)
  = after_request s (request_of self "/clients" "GET" None)
  /\ snd (SimplePay.get_employees self id w s)
     = after_request s
         (request_of self ("/clients/" ++ str id ++ "/employees") "GET" None)
  /\ snd (SimplePay.get_employee self id w s)
     = after_request s (request_of self ("/employees/" ++ str id) "GET" None)
  /\ snd (SimplePay.get_leave_types self id w s)
     = after_request s
         (request_of self ("/clients/" ++ str id ++ "/leave_types") "GET" None)
  /\ snd (SimplePay.get_leave_balances self id date w s)
     = after_request s
         (request_of self
            ("/employees/" ++ str id ++ "/leave_balances?date="
             ++ strftime date "%Y-%m-%d")
            "GET" None)
  /\ snd (SimplePay.get_leave_days self id w s)
     = after_request s
         (request_of self ("/employees/" ++ str id ++ "/leave_days") "GET" None)
  /\ snd (SimplePay.get_payslips self id w s)
     = after_request s
         (request_of self ("/employees/" ++ str id ++ "/payslips") "GET" None)
  /\ snd (SimplePay.get_payslip self id w s)
     = after_request s (request_of self ("/payslips/" ++ str id) "GET" None)
  /\ snd (SimplePay.get_payslip_pdf self id w s)
     = after_request s
         (request_of self ("/payslips/" ++ str id ++ ".pdf") "GET" None)
  /\ snd (SimplePay.get_calculations self id w s)
     = after_request s
         (request_of self ("/employees/" ++ str id ++ "/calculations")
            "GET" None)
  /\ snd (SimplePay.get_payslip_calculations self id w s)
     = after_request s
         (request_of self ("/payslips/" ++ str id ++ "/calculations")
            "GET" None)
  /\ snd (SimplePay.get_inherited_calculations self id w s)
     = after_request s
         (request_of self ("/employees/" ++ str id ++ "/inherited_calculations")
            "GET" None)
  /\ snd (SimplePay.get_service_periods self id w s)
     = after_request s
         (request_of self ("/employees/" ++ str id ++ "/service_periods")
            "GET" None).
Proof.
  repeat split;
    [ unfold SimplePay.get_clients | unfold SimplePay.get_employees
    | unfold SimplePay.get_employee | unfold SimplePay.get_leave_types
    | unfold SimplePay.get_leave_balances | unfold SimplePay.get_leave_days
    | unfold SimplePay.get_payslips | unfold SimplePay.get_payslip
    | unfold SimplePay.get_payslip_pdf | unfold SimplePay.get_calculations
    | unfold SimplePay.get_payslip_calculations
    | unfold SimplePay.get_inherited_calculations
    | unfold SimplePay.get_service_periods ];
    one_request.
Qed.

(** X17: each writing wrapper sends one request whatever the server
    answers: [delete_leave_day] and [delete_calculation] a DELETE without
    a body, [create_payslip_calculation] a POST of the calculation, and
    [get_leave_accrual_policies] a POST whose body never carries the
    employee ids given, [employee_ids] and [wave_ids] being [None] and
    [humanize] being [False]. *)
Theorem writing_wrappers_send_one_request
    (calculation start_date end_date leave_types : value)
    (employee_ids : option value) :
  snd (SimplePay.delete_leave_day self id w s)
  = after_request s (request_of self ("/leave_days/" ++ str id) "DELETE" None)
  /\ snd (SimplePay.delete_calculation self id w s)
     = after_request s
         (request_of self ("/calculations/" ++ str id) "DELETE" None)
  /\ snd (SimplePay.create_payslip_calculation self id calculation w s)
     = after_request s
         (request_of self ("/payslips/" ++ str id ++ "/calculations") "POST"
            (Some calculation))
  /\ snd (SimplePay.get_leave_accrual_policies self id start_date end_date
            leave_types employee_ids w s)
     = after_request s
         (request_of self ("/clients/" ++ str id ++ "/reports/comparison_leave")
            "POST"
            (Some (VDict [("start_date", start_date);
                          ("end_date", end_date);
                          ("wave_ids", VNone);
                          ("employee_ids", VNone);
                          ("leave_types", leave_types);
                          ("humanize", VBool false)]))).
Proof.
  repeat split;
    [ unfold SimplePay.delete_leave_day | unfold SimplePay.delete_calculation
    | unfold SimplePay.create_payslip_calculation
    | unfold SimplePay.get_leave_accrual_policies,
        SimplePay.comparison_leave_body ];
    one_request.
Qed.

(** X18: each wrapper of the non-blocking executor that awaits it draws
    one number, sleeps the delay and then sends one request, to the path
    of its blocking sibling, whatever the server answers. *)
Theorem async_wrappers_sleep_then_send_once (date : date_like)
    (start_date end_date leave_types : value) (employee_ids : option value) :
  snd (SimplePay.get_leave_types_async self id w s)
  = after_request_async w s
      (request_of self ("/clients/" ++ str id ++ "/leave_types") "GET" None)
  /\ snd (SimplePay.get_leave_balances_async self id date w s)
     = after_request_async w s
         (request_of self
            ("/employees/" ++ str id ++ "/leave_balances?date="
             ++ strftime date "%Y-%m-%d")
            "GET" None)
  /\ snd (SimplePay.get_payslips_async self id w s)
     = after_request_async w s
         (request_of self ("/employees/" ++ str id ++ "/payslips") "GET" None)
  /\ snd (SimplePay.get_payslip_async self id w s)
     = after_request_async w s
         (request_of self ("/payslips/" ++ str id) "GET" None)
  /\ snd (SimplePay.get_calculations_async self id w s)
     = after_request_async w s
         (request_of self ("/employees/" ++ str id ++ "/calculations")
            "GET" None)
  /\ snd (SimplePay.get_inherited_calculations_async self id w s)
     = after_request_async w s
         (request_of self ("/employees/" ++ str id ++ "/inherited_calculations")
            "GET" None)
  /\ snd (SimplePay.get_service_periods_async self id w s)
     = after_request_async w s
         (request_of self ("/employees/" ++ str id ++ "/service_periods")
            "GET" None)
  /\ snd (SimplePay.get_leave_accrual_policies_async self id start_date
            end_date leave_types employee_ids w s)
     = after_request_async w s
         (request_of self ("/clients/" ++ str id ++ "/reports/comparison_leave")
            "POST"
            (Some (VDict [("start_date", start_date);
                          ("end_date", end_date);
                          ("wave_ids", VNone);
                          ("employee_ids", VNone);
                          ("leave_types", leave_types);
                          ("humanize", VBool false)]))).
Proof.
  repeat split;
    [ unfold SimplePay.get_leave_types_async
    | unfold SimplePay.get_leave_balances_async
    | unfold SimplePay.get_payslips_async | unfold SimplePay.get_payslip_async
    | unfold SimplePay.get_calculations_async
    | unfold SimplePay.get_inherited_calculations_async
    | unfold SimplePay.get_service_periods_async
    | unfold SimplePay.get_leave_accrual_policies_async,
        SimplePay.comparison_leave_body ];
    one_request_async.
Qed.

End Endpoints.

(** ** Blocking and non-blocking wrappers on success *)

(** A blocking wrapper and its non-blocking sibling give the same result
    on 2xx answers that the two decoders decode alike, as soon as their
    continuations do: the first on the response, the second on its
    decoded body. *)
Lemma siblings_agree {A} (self : SimplePay.t) (resource method : string)
    (payload : option value) (w : world) (s : state)
    (ks ka : pyobj -> M A) :
  json (nonblocking_response w s (request_of self resource method payload))
  = json (blocking_response w s (request_of self resource method payload)) ->
  is_2xx (blocking_response w s (request_of self resource method payload)) ->
  is_2xx (nonblocking_response w s (request_of self resource method payload)) ->
  (forall body s1 s2,
      json (blocking_response w s (request_of self resource method payload))
      = Return body ->
      fst (ks (OResponse
                 (blocking_response w s
                    (request_of self resource method payload))) w s1)
      = fst (ka (OValue body) w s2)) ->
  (forall e s1,
      json (blocking_response w s (request_of self resource method payload))
      = Raise e ->
      fst (ks (OResponse
                 (blocking_response w s
                    (request_of self resource method payload))) w s1)
      = Raise e) ->
  fst (bind (SimplePay.request self resource method (kwarg payload)) ks w s)
  = fst (bind (SimplePay.request_async self resource method (kwarg payload))
           ka w s).
Proof.
  intros Hsame Hs Hsn Hret Hraise.
  rewrite (bind_return _ _ _ _ _ _
             (request_run_ok self resource method payload w s Hs)).
  destruct (json (blocking_response w s
                    (request_of self resource method payload)))
    as [body|e] eqn:Hj.
  - rewrite (bind_return _ _ _ _ _ _
               (request_async_run_ok self resource method payload w s body
                  Hsn Hsame)).
    apply Hret. reflexivity.
  - rewrite (Hraise e _ eq_refl). symmetry. apply bind_raise.
    destruct (success_ok _ Hsn) as (H404 & _ & Hok).
    rewrite request_async_ok by assumption.
    rewrite Hsame. reflexivity.
Qed.

Ltac by_decoding :=
  intros; unfold call_json, bind, lift, ret; cbn [fst snd];
  match goal with
  | H : json _ = _ |- _ => rewrite H
  end;
  try reflexivity.

Section Siblings.

Variables (self : SimplePay.t) (w : world) (s : state) (id : value).

Hypothesis Hdecode : decoders_agree w s.
Hypothesis Hsuccess : all_success w s.

(** X19: against a server that answers both executors with a 2xx status
    and a body that the two decoders decode alike (to the same value, or
    with the same exception), each blocking wrapper gives what its
    non-blocking sibling gives, value or exception: the blocking one
    decodes the response it got, the non-blocking one gets the body
    decoded.  Answers that the decoders take differently (an empty body,
    a content type that is not JSON) are not covered. *)
Theorem siblings_agree_on_success (date : date_like)
    (start_date end_date leave_types : value) (employee_ids : option value) :
  fst (SimplePay.get_employee self id w s)
  = fst (SimplePay.get_employee_async self id w s)
  /\ fst (SimplePay.get_leave_types self id w s)
     = fst (SimplePay.get_leave_types_async self id w s)
  /\ fst (SimplePay.get_leave_balances self id date w s)
     = fst (SimplePay.get_leave_balances_async self id date w s)
  /\ fst (SimplePay.get_payslip self id w s)
     = fst (SimplePay.get_payslip_async self id w s)
  /\ fst (SimplePay.get_calculations self id w s)
     = fst (SimplePay.get_calculations_async self id w s)
  /\ fst (SimplePay.get_inherited_calculations self id w s)
     = fst (SimplePay.get_inherited_calculations_async self id w s)
  /\ fst (SimplePay.get_service_periods self id w s)
     = fst (SimplePay.get_service_periods_async self id w s)
  /\ fst (SimplePay.get_leave_accrual_policies self id start_date end_date
            leave_types employee_ids w s)
     = fst (SimplePay.get_leave_accrual_policies_async self id start_date
              end_date leave_types employee_ids w s).
Proof.
  repeat split.
  - unfold SimplePay.get_employee, SimplePay.get_employee_async,
      SimplePay.call_async, await.
    apply (siblings_agree self _ "GET" None w s);
      [apply Hdecode | apply Hsuccess | apply Hsuccess | ..]; by_decoding.
    cbn [subscript]. unfold bind, lift, ret.
    destruct (getitem body "employee"); reflexivity.
  - unfold SimplePay.get_leave_types, SimplePay.get_leave_types_async,
      SimplePay.call_async, await.
    apply (siblings_agree self _ "GET" None w s);
      [apply Hdecode | apply Hsuccess | apply Hsuccess | ..]; by_decoding.
  - unfold SimplePay.get_leave_balances, SimplePay.get_leave_balances_async,
      SimplePay.call_async, await.
    apply (siblings_agree self _ "GET" None w s);
      [apply Hdecode | apply Hsuccess | apply Hsuccess | ..]; by_decoding.
    destruct body; reflexivity.
  - unfold SimplePay.get_payslip, SimplePay.get_payslip_async,
      SimplePay.call_async, await.
    apply (siblings_agree self _ "GET" None w s);
      [apply Hdecode | apply Hsuccess | apply Hsuccess | ..]; by_decoding.
  - unfold SimplePay.get_calculations, SimplePay.get_calculations_async,
      SimplePay.call_async, await.
    apply (siblings_agree self _ "GET" None w s);
      [apply Hdecode | apply Hsuccess | apply Hsuccess | ..]; by_decoding.
  - unfold SimplePay.get_inherited_calculations,
      SimplePay.get_inherited_calculations_async, SimplePay.call_async, await.
    apply (siblings_agree self _ "GET" None w s);
      [apply Hdecode | apply Hsuccess | apply Hsuccess | ..]; by_decoding.
  - unfold SimplePay.get_service_periods, SimplePay.get_service_periods_async,
      SimplePay.call_async, await.
    apply (siblings_agree self _ "GET" None w s);
      [apply Hdecode | apply Hsuccess | apply Hsuccess | ..]; by_decoding.
    cbn [for_items]. unfold bind, lift, ret.
    destruct (iterate body) as [items|e]; [| reflexivity].
    apply for_each_subscript_result.
  - unfold SimplePay.get_leave_accrual_policies,
      SimplePay.get_leave_accrual_policies_async, SimplePay.call_async, await.
    apply (siblings_agree self _ "POST"
             (Some (SimplePay.comparison_leave_body start_date end_date
                      leave_types)) w s);
      [apply Hdecode | apply Hsuccess | apply Hsuccess | ..]; by_decoding.
Qed.

End Siblings.

(** ** The further properties on the sample exchanges *)

Lemma employee_found_sample_is_returned :
  fst (SimplePay.request Sample.api "/employees/7" "GET" None
         (Sample.always Sample.employee_found 0) initial)
  = Return (OResponse Sample.employee_found)
  /\ status_code Sample.employee_found <> 404
  /\ ~ 400 <= status_code Sample.employee_found < 600.
Proof.
  split; [reflexivity|].
  exact (proj2 (request_returns_received_ok_response Sample.api "/employees/7"
                  "GET" None (Sample.always Sample.employee_found 0) initial
                  (OResponse Sample.employee_found) eq_refl)).
Defined.

Lemma employee_found_sample_is_decoded :
  fst (SimplePay.request_async Sample.api "/employees/7" "GET" None
         (Sample.always Sample.employee_found 0) initial)
  = Return (OValue (VDict [("employee", VDict [("id", VInt 7)])]))
  /\ exists body,
       json Sample.employee_found = Return body
       /\ OValue (VDict [("employee", VDict [("id", VInt 7)])]) = OValue body
       /\ status_code Sample.employee_found < 400.
Proof.
  split; [reflexivity|].
  exact (request_async_returns_decoded_body Sample.api "/employees/7" "GET"
           None (Sample.always Sample.employee_found 0) initial
           (OValue (VDict [("employee", VDict [("id", VInt 7)])])) eq_refl).
Defined.

Lemma html_404_sample_kind :
  decoder_raises_its_own Sample.html_404
  /\ fst (SimplePay.request Sample.api "/employees/1" "GET" None
            (Sample.always Sample.html_404 0) initial)
     = Raise (NotFound (VStr "<h1>Not Found</h1>"))
  /\ status_code Sample.html_404 = 404.
Proof.
  assert (Hdec : decoder_raises_its_own Sample.html_404)
    by (intros e [= <-]; left; reflexivity).
  split; [exact Hdec|]. split; [reflexivity|].
  exact (proj1 (failure_kind_tells_status Sample.api "/employees/1" "GET" None
                  (Sample.always Sample.html_404 0) initial
                  (VStr "<h1>Not Found</h1>") Hdec Hdec) eq_refl).
Defined.

Lemma employee_missing_sample_not_found :
  lookup "message" [("message", VStr "Employee not found")]
  = Some (VStr "Employee not found")
  /\ fst (SimplePay.request Sample.api "/employees/1" "GET" None
            (Sample.always Sample.employee_missing 0) initial)
     = Raise (NotFound (VStr "Employee not found"))
  /\ fst (SimplePay.request_async Sample.api "/employees/1" "GET" None
            (Sample.always Sample.employee_missing 0) initial)
     = Raise (NotFound (VStr "Employee not found")).
Proof.
  split; [reflexivity|].
  destruct (not_found_carries_message Sample.api "/employees/1" "GET" None
              (Sample.always Sample.employee_missing 0) initial
              [("message", VStr "Employee not found")]
              (VStr "Employee not found") eq_refl)
    as [Hblocking Hnonblocking].
  split.
  - exact (Hblocking eq_refl eq_refl).
  - exact (Hnonblocking eq_refl eq_refl).
Defined.

Lemma html_404_sample_fallback :
  json Sample.html_404 = Raise JSONDecodeError
  /\ fst (SimplePay.request Sample.api "/employees/1" "GET" None
            (Sample.always Sample.html_404 0) initial)
     = Raise (NotFound (VStr "<h1>Not Found</h1>"))
  /\ fst (SimplePay.request_async Sample.api "/employees/1" "GET" None
            (Sample.always Sample.html_404 0) initial)
     = Raise TypeError.
Proof.
  split; [reflexivity|].
  apply (not_found_on_text_body Sample.api "/employees/1" "GET" None
           (Sample.always Sample.html_404 0) initial Sample.html_404).
  - split; reflexivity.
  - reflexivity.
  - reflexivity.
Defined.

Lemma forbidden_sample_messages :
  is_failure Sample.forbidden
  /\ fst (SimplePay.request Sample.api "/clients" "GET" None
            (Sample.always Sample.forbidden 0) initial)
     = Raise (SimplePayException (VStr "Forbidden"))
  /\ fst (SimplePay.request_async Sample.api "/clients" "GET" None
            (Sample.always Sample.forbidden 0) initial)
     = Raise (SimplePayException (VStr "Status: 403: Forbidden")).
Proof.
  assert (Hf : is_failure Sample.forbidden) by (unfold is_failure; cbn; lia).
  split; [exact Hf|].
  destruct (failure_message_alone Sample.api "/clients" "GET" None
              (Sample.always Sample.forbidden 0) initial
              [("message", VStr "Forbidden")] (VStr "Forbidden")
              eq_refl eq_refl) as [Hblocking Hnonblocking].
  split.
  - exact (Hblocking Hf eq_refl).
  - exact (Hnonblocking Hf eq_refl).
Defined.

Lemma unprocessable_sample_key_error :
  is_failure Sample.unprocessable
  /\ fst (SimplePay.request Sample.api "/clients" "GET" None
            (Sample.always Sample.unprocessable 0) initial)
     = Raise (KeyError (VStr "message"))
  /\ fst (SimplePay.request_async Sample.api "/clients" "GET" None
            (Sample.always Sample.unprocessable 0) initial)
     = Raise (KeyError (VStr "message"))
  /\ (KeyError (VStr "message") = KeyError (VStr "message")
      \/ KeyError (VStr "message") = TypeError).
Proof.
  assert (Hf : is_failure Sample.unprocessable)
    by (unfold is_failure; cbn; lia).
  split; [exact Hf|].
  apply (failure_without_message_escapes Sample.api "/clients" "GET" None
           (Sample.always Sample.unprocessable 0) initial Sample.unprocessable
           (VDict [("errors", VList [])]) (KeyError (VStr "message"))).
  - split; reflexivity.
  - exact Hf.
  - reflexivity.
  - reflexivity.
Defined.

Lemma clients_found_sample_listing :
  is_2xx Sample.clients_found
  /\ fst (SimplePay.get_clients Sample.api
            (Sample.always Sample.clients_found 0) initial)
     = Return [OValue (VDict [("id", VInt 1)]); OValue (VDict [("id", VInt 2)])].
Proof.
  assert (Hs : is_2xx Sample.clients_found) by (unfold is_2xx; cbn; lia).
  split; [exact Hs|].
  refine (proj1 (listings_return_the_fields Sample.api
                   (Sample.always Sample.clients_found 0) initial
                   (VInt 1) (VInt 1)
                   [VDict [("client", VDict [("id", VInt 1)])];
                    VDict [("client", VDict [("id", VInt 2)])]]
                   [VDict [("id", VInt 1)]; VDict [("id", VInt 2)]])
            Hs eq_refl _).
  repeat constructor.
Defined.

Lemma leave_days_found_sample_listing :
  is_2xx Sample.leave_days_found
  /\ fst (SimplePay.get_leave_days Sample.api (VInt 7)
            (Sample.always Sample.leave_days_found 0) initial)
     = Return [OValue (VDict [("id", VInt 10)]);
               OValue (VDict [("id", VInt 11)])].
Proof.
  assert (Hs : is_2xx Sample.leave_days_found) by (unfold is_2xx; cbn; lia).
  split; [exact Hs|].
  refine (proj1 (get_leave_days_returns_first_elements Sample.api
                   (Sample.always Sample.leave_days_found 0) initial (VInt 7)
                   [VList [VDict [("id", VInt 10)]; VInt 0];
                    VList [VDict [("id", VInt 11)]; VInt 0]]
                   [VDict [("id", VInt 10)]; VDict [("id", VInt 11)]]
                   Hs _) eq_refl).
  repeat constructor.
Defined.

Lemma clients_malformed_sample_key_error :
  is_2xx Sample.clients_malformed
  /\ fst (SimplePay.get_clients Sample.api
            (Sample.always Sample.clients_malformed 0) initial)
     = Raise (KeyError (VStr "client")).
Proof.
  assert (Hs : is_2xx Sample.clients_malformed) by (unfold is_2xx; cbn; lia).
  split; [exact Hs|].
  refine (proj1 (get_clients_stops_at_malformed_item Sample.api
                   (Sample.always Sample.clients_malformed 0) initial
                   [VDict [("client", VDict [("id", VInt 1)])]]
                   [VDict [("id", VInt 1)]] []
                   (VDict [("customer", VDict [("id", VInt 2)])])
                   (KeyError (VStr "client")) Hs eq_refl _ eq_refl)).
  repeat constructor.
Defined.

Lemma clients_found_sample_payslips :
  is_2xx Sample.clients_found
  /\ fst (SimplePay.get_payslips Sample.api (VInt 7)
            (Sample.always Sample.clients_found 0) initial)
     = Return [OValue (VDict [("client", VDict [("id", VInt 1)])]);
               OValue (VDict [("client", VDict [("id", VInt 2)])])].
Proof.
  assert (Hs : is_2xx Sample.clients_found) by (unfold is_2xx; cbn; lia).
  split; [exact Hs|].
  exact (get_payslips_returns_items Sample.api
           (Sample.always Sample.clients_found 0) initial (VInt 7)
           [VDict [("client", VDict [("id", VInt 1)])];
            VDict [("client", VDict [("id", VInt 2)])]]
           Hs eq_refl).
Defined.

Lemma balances_found_sample_reshaped :
  is_2xx Sample.balances_found
  /\ exists balances,
       fst (SimplePay.get_leave_balances Sample.api (VInt 7) Sample.new_year
              (Sample.always Sample.balances_found 0) initial)
       = Return balances
       /\ List.length balances = 2%nat
       /\ forall i k v,
            nth_error [("101", VInt 15); ("102", VInt 3)] i = Some (k, v) ->
            nth_error balances i
            = Some (OValue (VDict [("leave_id", VStr k); ("balance", v)])).
Proof.
  assert (Hs : is_2xx Sample.balances_found) by (unfold is_2xx; cbn; lia).
  split; [exact Hs|].
  exact (get_leave_balances_reshapes Sample.api
           (Sample.always Sample.balances_found 0) initial (VInt 7)
           Sample.new_year (VDict [("101", VInt 15); ("102", VInt 3)])
           Hs eq_refl).
Defined.

Lemma pdf_found_sample_content :
  is_2xx Sample.pdf_found
  /\ fst (SimplePay.get_payslip_pdf Sample.api (VInt 9)
            (Sample.always Sample.pdf_found 0) initial)
     = Return (OBytes "%PDF-1.4").
Proof.
  assert (Hs : is_2xx Sample.pdf_found) by (unfold is_2xx; cbn; lia).
  split; [exact Hs|].
  exact (get_payslip_pdf_returns_content Sample.api
           (Sample.always Sample.pdf_found 0) initial (VInt 9) Hs).
Defined.

Lemma employee_found_sample_calculation :
  is_2xx Sample.employee_found
  /\ fst (SimplePay.create_payslip_calculation Sample.api (VInt 9)
            (VDict [("amount", VInt 100)])
            (Sample.always Sample.employee_found 0) initial)
     = Return (OResponse Sample.employee_found).
Proof.
  assert (Hs : is_2xx Sample.employee_found) by (unfold is_2xx; cbn; lia).
  split; [exact Hs|].
  exact (f_equal fst
           (create_payslip_calculation_posts Sample.api
              (Sample.always Sample.employee_found 0) initial (VInt 9)
              (VDict [("amount", VInt 100)]) Hs)).
Defined.

Lemma employee_found_sample_siblings :
  decoders_agree (Sample.always Sample.employee_found 0) initial
  /\ all_success (Sample.always Sample.employee_found 0) initial
  /\ fst (SimplePay.get_employee Sample.api (VInt 7)
            (Sample.always Sample.employee_found 0) initial)
     = fst (SimplePay.get_employee_async Sample.api (VInt 7)
              (Sample.always Sample.employee_found 0) initial).
Proof.
  assert (Hd : decoders_agree (Sample.always Sample.employee_found 0) initial)
    by (intros req; reflexivity).
  assert (Hs : all_success (Sample.always Sample.employee_found 0) initial)
    by (intros req; unfold is_2xx; cbn; lia).
  split; [exact Hd|]. split; [exact Hs|].
  exact (proj1 (siblings_agree_on_success Sample.api
                  (Sample.always Sample.employee_found 0) initial (VInt 7)
                  Hd Hs Sample.new_year (VStr "2024-01-01") (VStr "2024-01-31")
                  (VList []) None)).
Defined.

(** * The table of banks *)

Module ConstantsFacts.

Import Constants.

(** ** Strings *)

Lemma append_assoc (a b c : string) : (a ++ b) ++ c = a ++ b ++ c.
Proof. induction a as [|x a IH]; cbn; [| rewrite IH]; reflexivity. Qed.

Lemma append_is_empty (a b : string) :
  is_empty a = false -> is_empty (a ++ b) = false.
Proof. destruct a; [discriminate | reflexivity]. Qed.

(** ** Splitting into words *)

Lemma split_words_word (w word rest : string) :
  no_space w = true ->
  split_words word (w ++ rest) = split_words (word ++ w) rest.
Proof.
  revert word. induction w as [|c w IH]; intros word Hw.
  - rewrite append_empty_r. reflexivity.
  - cbn in Hw. apply Bool.andb_true_iff in Hw. destruct Hw as [Hc Hw].
    apply Bool.negb_true_iff in Hc.
    cbn [append split_words]. rewrite Hc, (IH _ Hw), append_assoc.
    reflexivity.
Qed.

Lemma split_words_spaces (sep rest : string) :
  all_space sep = true -> split_words "" (sep ++ rest) = split_words "" rest.
Proof.
  induction sep as [|c sep IH]; intros Hs; [reflexivity|].
  cbn in Hs. apply Bool.andb_true_iff in Hs. destruct Hs as [Hc Hs].
  cbn [append split_words is_empty]. rewrite Hc. apply IH, Hs.
Qed.

Lemma split_words_end (word sep rest : string) :
  is_empty word = false -> all_space sep = true -> is_empty sep = false ->
  split_words word (sep ++ rest) = word :: split_words "" rest.
Proof.
  intros Hw Hs He. destruct sep as [|c sep]; [discriminate|].
  cbn in Hs. apply Bool.andb_true_iff in Hs. destruct Hs as [Hc Hs].
  cbn [append split_words]. rewrite Hc, Hw.
  f_equal. apply split_words_spaces, Hs.
Qed.

Lemma split_one_word (w : string) : is_word w = true -> split w = [w].
Proof.
  unfold is_word, split. intros H. apply Bool.andb_true_iff in H.
  destruct H as [He Hw]. apply Bool.negb_true_iff in He.
  rewrite <- (append_empty_r w) at 1.
  rewrite (split_words_word _ _ _ Hw). cbn. rewrite He. reflexivity.
Qed.

(** Words joined by single spaces, then whitespace: the words come back,
    followed by those of what comes next. *)
Lemma split_joined (ws : list string) (sep rest : string) :
  forallb is_word ws = true -> all_space sep = true -> is_empty sep = false ->
  split_words "" (join " " ws ++ sep ++ rest)
  = (ws ++ split_words "" rest)%list.
Proof.
  intros Hws Hs He. induction ws as [|a ws IH].
  - cbn. apply split_words_spaces, Hs.
  - cbn in Hws. apply Bool.andb_true_iff in Hws. destruct Hws as [Ha Hws].
    unfold is_word in Ha. apply Bool.andb_true_iff in Ha.
    destruct Ha as [Hne Hns]. apply Bool.negb_true_iff in Hne.
    destruct ws as [|b ws].
    + cbn [join]. rewrite (split_words_word _ _ _ Hns).
      cbn [append]. rewrite (split_words_end _ _ _ Hne Hs He). reflexivity.
    + change (join " " (a :: b :: ws)) with (a ++ " " ++ join " " (b :: ws)).
      rewrite !append_assoc. rewrite (split_words_word _ _ _ Hns).
      change ("" ++ a) with a.
      rewrite (split_words_end a " " _ Hne eq_refl eq_refl).
      rewrite (IH Hws). reflexivity.
Qed.

Lemma split_all_space (l : string) : all_space l = true -> split l = [].
Proof.
  intros H. unfold split. rewrite <- (append_empty_r l).
  rewrite (split_words_spaces _ _ H). reflexivity.
Qed.

(** ** Reading a number *)

Lemma lstrip_no_space (s : string) : no_space s = true -> lstrip s = s.
Proof.
  destruct s as [|c s]; [reflexivity|]. cbn. intros H.
  apply Bool.andb_true_iff in H. destruct H as [Hc _].
  apply Bool.negb_true_iff in Hc. rewrite Hc. reflexivity.
Qed.

Lemma rstrip_no_space (s : string) : no_space s = true -> rstrip s = s.
Proof.
  induction s as [|c s IH]; [reflexivity|]. cbn. intros H.
  apply Bool.andb_true_iff in H. destruct H as [Hc Hs].
  apply Bool.negb_true_iff in Hc. rewrite Hc, (IH Hs). reflexivity.
Qed.

Lemma strip_no_space (s : string) : no_space s = true -> strip s = s.
Proof.
  intros H. unfold strip. rewrite (rstrip_no_space _ H).
  apply lstrip_no_space, H.
Qed.

Lemma digits_no_space (d : Decimal.uint) :
  no_space (NilEmpty.string_of_uint d) = true.
Proof. induction d; cbn; auto. Qed.

Lemma digits_well_grouped (d : Decimal.uint) :
  well_grouped true (NilEmpty.string_of_uint d) = true.
Proof. induction d; cbn; auto. Qed.

Lemma digits_well_grouped_nonnil (d : Decimal.uint) :
  d <> Decimal.Nil -> well_grouped false (NilEmpty.string_of_uint d) = true.
Proof.
  destruct d; [congruence | ..]; intros _; cbn; apply digits_well_grouped.
Qed.

Lemma digits_without_underscores (d : Decimal.uint) :
  without_underscores (NilEmpty.string_of_uint d)
  = NilEmpty.string_of_uint d.
Proof. induction d; cbn; rewrite ?IHd; reflexivity. Qed.

Lemma digit_is_no_sign (c : ascii) (rest : string) :
  is_digit c = true ->
  match String c rest with
  | String "+" tail => (false, tail)
  | String "-" tail => (true, tail)
  | _ => (false, String c rest)
  end = (false, String c rest).
Proof.
  destruct c as [[] [] [] [] [] [] [] []]; cbn; intros H;
    try discriminate H; reflexivity.
Qed.

Lemma int_of_digits (ds : string) (d : Decimal.uint) :
  no_space ds = true -> well_grouped false ds = true ->
  without_underscores ds = ds ->
  (String.length ds <= max_str_digits)%nat ->
  NilEmpty.uint_of_string ds = Some d ->
  int ds = Ok (Z.of_uint d) /\ int (String "-" ds) = Ok (- Z.of_uint d).
Proof.
  intros Hns Hwg Hwu Hlen Hd. apply Nat.leb_le in Hlen. split.
  - unfold int. rewrite (strip_no_space _ Hns).
    destruct ds as [|c rest]; [discriminate Hwg|].
    assert (Hc : is_digit c = true).
    { cbn in Hwg. destruct (is_digit c); [reflexivity|].
      destruct (Ascii.eqb c "_"); discriminate Hwg. }
    rewrite (digit_is_no_sign c rest Hc).
    rewrite Hwg, Hwu, Hlen, Hd. reflexivity.
  - unfold int. rewrite strip_no_space by (cbn; exact Hns).
    cbv iota beta. rewrite Hwg, Hwu, Hlen, Hd. reflexivity.
Qed.

Lemma int_of_str_int (n : Z) :
  (String.length (str_int n) <= max_str_digits)%nat ->
  int (str_int n) = Ok n.
Proof.
  unfold str_int. destruct n as [|p|p]; cbn [Z.to_int NilZero.string_of_int].
  - intros _. reflexivity.
  - pose proof (DecimalPos.Unsigned.to_uint_nonnil p) as Hnil.
    assert (Hs : NilZero.string_of_uint (Pos.to_uint p)
                 = NilEmpty.string_of_uint (Pos.to_uint p))
      by (destruct (Pos.to_uint p); [congruence | reflexivity ..]).
    rewrite Hs. intros Hlen.
    destruct (int_of_digits _ (Pos.to_uint p)
                (digits_no_space _) (digits_well_grouped_nonnil _ Hnil)
                (digits_without_underscores _) Hlen (NilEmpty.usu _))
      as [H _].
    rewrite H. unfold Z.of_uint.
    rewrite DecimalPos.Unsigned.of_to. reflexivity.
  - pose proof (DecimalPos.Unsigned.to_uint_nonnil p) as Hnil.
    assert (Hs : NilZero.string_of_uint (Pos.to_uint p)
                 = NilEmpty.string_of_uint (Pos.to_uint p))
      by (destruct (Pos.to_uint p); [congruence | reflexivity ..]).
    rewrite Hs. intros Hlen.
    destruct (int_of_digits _ (Pos.to_uint p)
                (digits_no_space _) (digits_well_grouped_nonnil _ Hnil)
                (digits_without_underscores _)
                (Nat.le_trans _ _ _ (Nat.le_succ_diag_r _) Hlen)
                (NilEmpty.usu _))
      as [_ H].
    rewrite H. unfold Z.of_uint.
    rewrite DecimalPos.Unsigned.of_to. reflexivity.
Qed.

Lemma str_int_is_word (n : Z) : is_word (str_int n) = true.
Proof.
  unfold str_int, is_word.
  destruct n as [|p|p]; cbn [Z.to_int NilZero.string_of_int];
    [reflexivity | ..];
    pose proof (DecimalPos.Unsigned.to_uint_nonnil p) as Hnil;
    pose proof (digits_no_space (Pos.to_uint p)) as Hns;
    destruct (Pos.to_uint p); try congruence; cbn in *; exact Hns.
Qed.

(** ** Lines *)

Lemma entry_joined (ws : list string) (sep : string) (n : Z) :
  forallb is_word ws = true ->
  all_space sep = true -> is_empty sep = false ->
  (String.length (str_int n) <= max_str_digits)%nat ->
  entry (join " " ws ++ sep ++ str_int n) = Ok (n, join " " ws).
Proof.
  intros Hws Hs He Hlen. unfold entry, split.
  rewrite (split_joined ws sep (str_int n) Hws Hs He).
  fold (split (str_int n)). rewrite (split_one_word _ (str_int_is_word n)).
  unfold last_word. rewrite rev_app_distr. cbn [rev app].
  rewrite (int_of_str_int n Hlen), removelast_last. reflexivity.
Qed.

(** X20: a line made of the words of a name, single spaces between
    them, then whitespace and a number written in decimal, gives the
    number as the key and the name as the value; in particular when the
    whitespace is one tab, as on the lines of the table. *)
Theorem entry_reads_name_and_code (ws : list string) (sep : string) (n : Z) :
  forallb is_word ws = true ->
  all_space sep = true -> is_empty sep = false ->
  (String.length (str_int n) <= max_str_digits)%nat ->
  entry (join " " ws ++ sep ++ str_int n) = Ok (n, join " " ws)
  /\ entry (line_of (n, ws)) = Ok (n, join " " ws).
Proof.
  intros Hws Hs He Hlen. split.
  - apply entry_joined; assumption.
  - apply (entry_joined ws (String tab "") n Hws eq_refl eq_refl Hlen).
Qed.

(** X21: a line that holds whitespace only has no last word: its entry
    raises [IndexError], and so does the table when the line is met,
    since only empty lines are skipped. *)
Theorem blank_line_raises_index_error (l : string) (rest : list string)
    (d : list (Z * string)) :
  all_space l = true -> is_empty l = false ->
  entry l = Error IndexError
  /\ comprehension (l :: rest) d = Error IndexError.
Proof.
  intros Hs He.
  assert (Hentry : entry l = Error IndexError)
    by (unfold entry; rewrite (split_all_space l Hs); reflexivity).
  split; [exact Hentry|].
  cbn [comprehension]. rewrite He, Hentry. reflexivity.
Qed.

(** ** Tables *)

Lemma store_new (key : Z) (name : string) (d : list (Z * string)) :
  existsb (Z.eqb key) (map fst d) = false ->
  store key name d = (d ++ [(key, name)])%list.
Proof.
  induction d as [|[k v] d IH]; cbn; [reflexivity|].
  intros H. apply Bool.orb_false_iff in H. destruct H as [Hk Hd].
  rewrite Z.eqb_sym, Hk, (IH Hd). reflexivity.
Qed.

Lemma distinct_middle (a b : list Z) (k : Z) :
  distinct (a ++ k :: b) = true -> existsb (Z.eqb k) a = false.
Proof.
  induction a as [|x a IH]; cbn; [reflexivity|].
  intros H. apply Bool.andb_true_iff in H. destruct H as [Hx Ha].
  apply Bool.negb_true_iff in Hx. rewrite existsb_app in Hx.
  apply Bool.orb_false_iff in Hx. destruct Hx as [_ Hx]. cbn in Hx.
  apply Bool.orb_false_iff in Hx. destruct Hx as [Hxk _].
  rewrite Z.eqb_sym, Hxk, (IH Ha). reflexivity.
Qed.

Lemma distinct_NoDup (keys : list Z) : distinct keys = true -> NoDup keys.
Proof.
  induction keys as [|k keys IH]; cbn; [constructor|].
  intros H. apply Bool.andb_true_iff in H. destruct H as [Hk Hrest].
  constructor; [| apply IH, Hrest].
  intros Hin. apply Bool.negb_true_iff in Hk.
  assert (existsb (Z.eqb k) keys = true) as Hex
    by (apply existsb_exists; exists k; split; [assumption | apply Z.eqb_refl]).
  congruence.
Qed.

Lemma no_newline_app (a b : string) :
  no_newline (a ++ b) = no_newline a && no_newline b.
Proof.
  induction a as [|c a IH]; cbn; [reflexivity|].
  rewrite IH, Bool.andb_assoc. reflexivity.
Qed.

Lemma no_space_no_newline (s : string) :
  no_space s = true -> no_newline s = true.
Proof.
  induction s as [|c s IH]; cbn; [reflexivity|]. intros H.
  apply Bool.andb_true_iff in H. destruct H as [Hc Hs].
  rewrite (IH Hs), Bool.andb_true_r. apply Bool.negb_true_iff.
  apply Ascii.eqb_neq. intros ->. discriminate Hc.
Qed.

Lemma is_word_no_newline (w : string) :
  is_word w = true -> no_newline w = true.
Proof.
  unfold is_word. intros H. apply Bool.andb_true_iff in H.
  apply no_space_no_newline, H.
Qed.

Lemma join_no_newline (ws : list string) :
  forallb is_word ws = true -> no_newline (join " " ws) = true.
Proof.
  induction ws as [|a ws IH]; cbn [forallb]; [reflexivity|]. intros H.
  apply Bool.andb_true_iff in H. destruct H as [Ha Hws].
  destruct ws as [|b ws]; [apply is_word_no_newline, Ha|].
  change (join " " (a :: b :: ws)) with (a ++ " " ++ join " " (b :: ws)).
  rewrite !no_newline_app, (is_word_no_newline _ Ha), (IH Hws). reflexivity.
Qed.

Lemma line_no_newline (row : Z * list string) :
  row_ok row = true -> no_newline (line_of row) = true.
Proof.
  unfold row_ok, line_of. intros H. apply Bool.andb_true_iff in H.
  destruct H as [Hws _]. rewrite no_newline_app, (join_no_newline _ Hws).
  cbn. apply is_word_no_newline, str_int_is_word.
Qed.

Lemma line_not_empty (row : Z * list string) :
  is_empty (line_of row) = false.
Proof. unfold line_of. destruct (join " " (snd row)); reflexivity. Qed.

Lemma split_on_line (line piece rest : string) :
  no_newline line = true ->
  split_on newline piece (line ++ String newline rest)
  = (piece ++ line) :: split_on newline "" rest.
Proof.
  revert piece. induction line as [|c line IH]; intros piece H.
  - rewrite append_empty_r. reflexivity.
  - cbn [no_newline] in H. apply Bool.andb_true_iff in H.
    destruct H as [Hc Hline]. apply Bool.negb_true_iff in Hc.
    cbn [append split_on]. rewrite Hc, (IH _ Hline), append_assoc.
    reflexivity.
Qed.

Lemma split_on_lines (rows : list (Z * list string)) :
  forallb row_ok rows = true ->
  split_on newline "" (lines_text rows) = (map line_of rows ++ [""])%list.
Proof.
  induction rows as [|row rows IH]; cbn [forallb]; [reflexivity|]. intros H.
  apply Bool.andb_true_iff in H. destruct H as [Hrow Hrows].
  cbn [lines_text map app].
  rewrite (split_on_line _ _ _ (line_no_newline _ Hrow)), (IH Hrows).
  reflexivity.
Qed.

Lemma comprehension_rows (rows : list (Z * list string))
    (d : list (Z * string)) :
  forallb row_ok rows = true ->
  distinct (map fst d ++ map fst rows) = true ->
  comprehension (map line_of rows ++ [""]) d
  = Ok (d ++ map (fun row => (fst row, join " " (snd row))) rows)%list.
Proof.
  revert d. induction rows as [|[n ws] rows IH]; intros d Hok Hd.
  - cbn. rewrite app_nil_r. reflexivity.
  - cbn [forallb] in Hok. apply Bool.andb_true_iff in Hok.
    destruct Hok as [Hrow Hrows].
    pose proof Hrow as Hrow'. unfold row_ok in Hrow'.
    apply Bool.andb_true_iff in Hrow'. destruct Hrow' as [Hws Hlen].
    apply Nat.leb_le in Hlen. cbn [fst snd] in Hws, Hlen.
    cbn [map app comprehension fst snd] in *.
    rewrite line_not_empty.
    unfold line_of at 1. cbn [fst snd].
    change (String tab (str_int n)) with (String tab "" ++ str_int n).
    rewrite (entry_joined ws (String tab "") n Hws eq_refl eq_refl Hlen).
    rewrite (store_new _ _ _ (distinct_middle _ _ _ Hd)).
    rewrite IH.
    + rewrite <- app_assoc. reflexivity.
    + exact Hrows.
    + rewrite map_app, <- app_assoc. exact Hd.
Qed.

(** X22: a table written in the layout of the module (a line break,
    then one line per bank, each followed by a line break) reads back as
    the banks it was written from, in order, when no two codes are the
    same: the code is the key, the name with single spaces the value. *)
Theorem banks_of_rendered_table (rows : list (Z * list string)) :
  forallb row_ok rows = true -> distinct (map fst rows) = true ->
  banks_of (render rows)
  = Ok (map (fun row => (fst row, join " " (snd row))) rows).
Proof.
  intros Hok Hd. unfold banks_of, render.
  cbn [split_on]. change (Ascii.eqb newline newline) with true. cbv iota.
  rewrite (split_on_lines _ Hok). cbn [comprehension is_empty].
  apply (comprehension_rows rows [] Hok Hd).
Qed.

(** X23: building [BANKS] raises nothing: the table has forty banks, one
    per non-empty line of the text, no two with the same code, so no
    line overwrites another; each bank is the name and the code of a
    line of the text. *)
Theorem banks_keep_every_line :
  exists banks,
    BANKS = Ok banks
    /\ List.length banks = 40%nat
    /\ List.length banks
       = List.length (filter (fun l => negb (is_empty l))
                        (split_on newline "" table))
    /\ NoDup (map fst banks)
    /\ forall code name,
         In (code, name) banks ->
         In (name ++ String tab (str_int code)) (split_on newline "" table).
Proof.
  destruct BANKS as [banks|e] eqn:Hbanks; [| vm_compute in Hbanks; discriminate].
  exists banks. split; [reflexivity|].
  assert (Hval : Ok banks = BANKS) by (symmetry; exact Hbanks).
  vm_compute in Hval. injection Hval as ->.
  split; [reflexivity|]. split; [vm_compute; reflexivity|].
  split; [apply distinct_NoDup; vm_compute; reflexivity|].
  intros code name Hin.
  match type of Hin with
  | In _ ?l =>
      assert (Hall : forallb
                       (fun kv : Z * string =>
                          existsb
                            (String.eqb
                               (snd kv ++ String tab (str_int (fst kv))))
                            (split_on newline "" table))
                       l = true)
        by (vm_compute; reflexivity)
  end.
  pose proof (proj1 (forallb_forall _ _) Hall _ Hin) as Hex.
  cbn [fst snd] in Hex. apply existsb_exists in Hex.
  destruct Hex as (line & Hline & Heq).
  apply String.eqb_eq in Heq. rewrite Heq. exact Hline.
Qed.

(** ** The table properties on sample lines *)

Lemma absa_line_sample :
  forallb is_word ["ABSA"; "Bank"] = true
  /\ entry ("ABSA Bank" ++ String tab "1462381520")
     = Ok (1462381520, "ABSA Bank").
Proof.
  split; [reflexivity|].
  assert (Hlen : (String.length (str_int 1462381520) <= max_str_digits)%nat)
    by (apply Nat.leb_le; reflexivity).
  exact (proj1 (entry_reads_name_and_code ["ABSA"; "Bank"] (String tab "")
                  1462381520 eq_refl eq_refl eq_refl Hlen)).
Defined.

Lemma blank_line_sample :
  all_space "   " = true
  /\ entry "   " = Error IndexError
  /\ comprehension ["   "; "Nedbank 189450181"] [] = Error IndexError.
Proof.
  split; [reflexivity|].
  exact (blank_line_raises_index_error "   " ["Nedbank 189450181"] []
           eq_refl eq_refl).
Defined.

Lemma two_banks_sample :
  distinct [189450181; 1809393886] = true
  /\ banks_of (render [(189450181, ["Nedbank"]);
                       (1809393886, ["First"; "National"; "Bank"])])
     = Ok [(189450181, "Nedbank"); (1809393886, "First National Bank")].
Proof.
  split; [reflexivity|].
  exact (banks_of_rendered_table
           [(189450181, ["Nedbank"]);
            (1809393886, ["First"; "National"; "Bank"])]
           eq_refl eq_refl).
Defined.

End ConstantsFacts.
